(** * Endpoint manager: a shallow embedding of [scripts/endpoint-manager.py]

    The script registers LLM endpoint configurations into the Moonshot
    backend.  Its functions are embedded below one by one, with the same
    names and the same order of operations.  Python values coming out of
    [json.load] are an inductive type; exceptions are an explicit result
    type; the calls into the backend API are recorded in a trace; the file
    system, the JSON parser, the backend and the few Python built-ins whose
    full behaviour is not the script's business are fields of a [World]
    record. *)

From stdpp Require Import gmap strings list sorting pretty.
From Stdlib Require Import ZArith Ascii.

Set Warnings "-register-all".
Local Open Scope string_scope.
Local Open Scope list_scope.

(** ** Python values *)

(** What [json.load] / [json.loads] can return, and what the backend hands
    back in its endpoint records.  A float is carried by its [repr]; the
    script never computes on one. *)
Inductive value :=
| VNone
| VBool (b : bool)
| VInt (n : Z)
| VFloat (r : string)
| VStr (s : string)
| VList (l : list value)
| VDict (d : gmap string value).

(** [type(v).__name__], as it appears in Python's error messages. *)
Definition type_name (v : value) : string :=
  match v with
  | VNone => "NoneType"
  | VBool _ => "bool"
  | VInt _ => "int"
  | VFloat _ => "float"
  | VStr _ => "str"
  | VList _ => "list"
  | VDict _ => "dict"
  end.

(** Truth value of an object, as tested by [if not config]. *)
Definition truthy (v : value) : bool :=
  match v with
  | VNone => false
  | VBool b => b
  | VInt n => negb (Z.eqb n 0)
  | VFloat r => negb (String.eqb r "0.0" || String.eqb r "-0.0")
  | VStr s => negb (String.eqb s "")
  | VList l => match l with [] => false | _ => true end
  | VDict d => negb (bool_decide (d = ∅))
  end.

(** ** Exceptions and results *)

(** [ImportError] stands for the class and its subclasses
    ([ModuleNotFoundError]); every class below derives from [Exception]. *)
Inductive exn_class :=
| ImportError | ValueError | RuntimeError | AttributeError | TypeError
| KeyError | OSError | JSONDecodeError | OtherException.

(** An exception: its class and [str(e)]. *)
Record exn := Exn { exn_cls : exn_class; exn_str : string }.

Definition is_ImportError (e : exn) : bool :=
  match exn_cls e with ImportError => true | _ => false end.

Inductive result (A : Type) :=
| Ok (a : A)
| Raise (e : exn).
Arguments Ok {A} a.
Arguments Raise {A} e.

(** Sequencing: the first exception raised ends the computation. *)
#[global] Instance result_bind : MBind result := λ A B k r,
  match r with
  | Ok a => k a
  | Raise e => Raise e
  end.

(** ** Strings *)

Fixpoint is_prefix (p s : string) : bool :=
  match p, s with
  | EmptyString, _ => true
  | String a p', String b s' => Ascii.eqb a b && is_prefix p' s'
  | String _ _, EmptyString => false
  end.

(** [p in s] on two [str]. *)
Fixpoint is_substring (p s : string) : bool :=
  is_prefix p s ||
  match s with
  | EmptyString => false
  | String _ s' => is_substring p s'
  end.

Fixpoint is_suffix (p s : string) : bool :=
  String.eqb p s ||
  match s with
  | EmptyString => false
  | String _ s' => is_suffix p s'
  end.

Definition squote : ascii := "'"%char.
Definition dquote : ascii := ascii_of_nat 34.
Definition backslash : ascii := ascii_of_nat 92.

Fixpoint has_char (c : ascii) (s : string) : bool :=
  match s with
  | EmptyString => false
  | String a s' => Ascii.eqb a c || has_char c s'
  end.

Definition hex_digit (n : nat) : ascii :=
  nth n (String.list_ascii_of_string "0123456789abcdef") "0"%char.

(** One character of [repr(s)], for the chosen quote [q]. *)
Definition repr_char (q c : ascii) : string :=
  let n := nat_of_ascii c in
  if Ascii.eqb c q || Ascii.eqb c backslash then String backslash (String c "")
  else if Nat.eqb n 9 then String backslash "t"
  else if Nat.eqb n 10 then String backslash "n"
  else if Nat.eqb n 13 then String backslash "r"
  else if Nat.ltb n 32 || Nat.eqb n 127 then
    String backslash (String "x"%char
      (String (hex_digit (n / 16)) (String (hex_digit (n mod 16)) "")))
  else String c "".

Fixpoint repr_chars (q : ascii) (s : string) : string :=
  match s with
  | EmptyString => ""
  | String c s' => repr_char q c +:+ repr_chars q s'
  end.

(** [repr(s)] of a [str] of ASCII characters: single quotes, unless the
    string holds a single quote and no double quote.  The field names of the
    validation are such strings; [py_repr] below covers the others. *)
Definition py_repr_str (s : string) : string :=
  let q := if has_char squote s && negb (has_char dquote s)
           then dquote else squote in
  String q (repr_chars q s) +:+ String q "".

Fixpoint join_with (sep : string) (l : list string) : string :=
  match l with
  | [] => ""
  | [x] => x
  | x :: rest => x +:+ sep +:+ join_with sep rest
  end.

(** [repr] of a list of [str], as an f-string renders [{missing_fields}]. *)
Definition py_repr_str_list (l : list string) : string :=
  "[" +:+ join_with ", " (py_repr_str <$> l) +:+ "]".

(** ** Dynamic operations on a configuration object *)

(** [x == s] for a [str] [s]: only an equal [str] compares equal. *)
Definition py_eq_str (x : value) (s : string) : bool :=
  match x with
  | VStr t => String.eqb t s
  | _ => false
  end.

(** [field in config]. *)
Definition py_contains (field : string) (config : value) : result bool :=
  match config with
  | VDict d => Ok (bool_decide (is_Some (d !! field)))
  | VList l => Ok (existsb (λ x, py_eq_str x field) l)
  | VStr s => Ok (is_substring field s)
  | _ => Raise (Exn TypeError
           ("argument of type '" +:+ type_name config +:+ "' is not iterable"))
  end.

Definition no_attribute (v : value) (attr : string) : exn :=
  Exn AttributeError
    ("'" +:+ type_name v +:+ "' object has no attribute '" +:+ attr +:+ "'").

(** [config.setdefault(key, default)], returning the object after the call. *)
Definition py_setdefault (config : value) (key : string) (default : value)
  : result value :=
  match config with
  | VDict d =>
      Ok (VDict (match d !! key with
                 | Some _ => d
                 | None => <[key := default]> d
                 end))
  | _ => Raise (no_attribute config "setdefault")
  end.

(** [config.get(key, default)]. *)
Definition py_get (config : value) (key : string) (default : value)
  : result value :=
  match config with
  | VDict d => Ok (match d !! key with Some v => v | None => default end)
  | _ => Raise (no_attribute config "get")
  end.

(** [config[key]] with a [str] key. *)
Definition py_getitem (config : value) (key : string) : result value :=
  match config with
  | VDict d =>
      match d !! key with
      | Some v => Ok v
      | None => Raise (Exn KeyError (py_repr_str key))
      end
  | VList _ =>
      Raise (Exn TypeError "list indices must be integers or slices, not str")
  | VStr _ =>
      Raise (Exn TypeError "string indices must be integers, not 'str'")
  | _ => Raise (Exn TypeError
           ("'" +:+ type_name config +:+ "' object is not subscriptable"))
  end.

(** ** [validate_endpoint_config] *)

Definition required_fields : list string := ["name"; "connector_type"; "model"].

(** The optional fields with the defaults of the five [setdefault] calls. *)
Definition optional_defaults : list (string * value) :=
  [("uri", VStr ""); ("token", VStr ""); ("max_calls_per_second", VInt 2);
   ("max_concurrency", VInt 1); ("params", VDict ∅)].

(** [[field for field in fields if field not in config]]. *)
Fixpoint missing_in (fields : list string) (config : value)
  : result (list string) :=
  match fields with
  | [] => Ok []
  | field :: rest =>
      present ← py_contains field config;
      others ← missing_in rest config;
      Ok (if (present : bool) then others else field :: others)
  end.

(** The function mutates [config]; the embedding returns the object as it
    is after the call. *)
Definition validate_endpoint_config (config : value) : result value :=
  missing_fields ← missing_in required_fields config;
  match missing_fields with
  | _ :: _ =>
      Raise (Exn ValueError
               ("Missing required fields in endpoint config: "
                +:+ py_repr_str_list missing_fields))
  | [] =>
      config ← py_setdefault config "uri" (VStr "");
      config ← py_setdefault config "token" (VStr "");
      config ← py_setdefault config "max_calls_per_second" (VInt 2);
      config ← py_setdefault config "max_concurrency" (VInt 1);
      config ← py_setdefault config "params" (VDict ∅);
      Ok config
  end.

(** ** The environment of a run *)

(** Keyword arguments of the backend's [api_create_endpoint]. *)
Record create_args := CreateArgs {
  arg_name : value;
  arg_connector_type : value;
  arg_uri : value;
  arg_token : value;
  arg_max_calls_per_second : value;
  arg_max_concurrency : value;
  arg_model : value;
  arg_params : value
}.

(** What a run does to the outside: calls into the backend API and lines
    printed on standard output, in order. *)
Inductive event :=
| GetAllEndpoints
| CreateEndpoint (args : create_args)
| Print (line : string).

(** What the file system answers when a path is probed and read: a file
    with its text, something [open] fails on (a directory, a file without
    read permission), or a path on which [Path.exists()] itself raises (an
    [OSError] other than "no such file", as for a name too long for the file
    system). *)
Inductive fs_node :=
| Readable (content : string)
| Unreadable (e : exn)
| ExistsRaises (e : exn).

(** Everything the script reads from outside itself.  The backend functions
    and [json.loads] belong to other code bases; [runtime_str] and
    [runtime_eq] are Python's [str()] and [==] on values that are not both
    [str]; [runtime_repr] is Python's [repr()] of a [str] that holds
    characters outside ASCII, which depends on the Unicode tables.
    [file_at] is [None] for a path on which [Path.exists()] answers false. *)
Record World := {
  moonshot_dir : string;
  moonshot_dir_exists : bool;
  import_from_api : string → option exn;
  api_get_all_endpoint : result (list value);
  api_create_endpoint : create_args → result value;
  data_dir_listing : option (list string);
  file_at : string → option fs_node;
  config_path : string → string;
  json_loads : string → result value;
  runtime_str : value → string;
  runtime_eq : value → value → bool;
  runtime_repr : string → string
}.

(** [f"{v}"]. *)
Definition py_str (w : World) (v : value) : string :=
  match v with
  | VStr s => s
  | _ => runtime_str w v
  end.

(** [a == b]. *)
Definition py_eq (w : World) (a b : value) : bool :=
  match a, b with
  | VStr s, VStr t => String.eqb s t
  | VStr _, _ | _, VStr _ => false
  | _, _ => runtime_eq w a b
  end.

(** Whether a [str] is made of ASCII characters. *)
Fixpoint ascii_only (s : string) : bool :=
  match s with
  | EmptyString => true
  | String c rest => Nat.ltb (nat_of_ascii c) 128 && ascii_only rest
  end.

(** [repr(s)] of any [str]. *)
Definition py_repr (w : World) (s : string) : string :=
  if ascii_only s then py_repr_str s else runtime_repr w s.

(** [repr] of a list of any [str], as an f-string renders
    [{available_configs}]. *)
Definition py_repr_list (w : World) (l : list string) : string :=
  "[" +:+ join_with ", " (py_repr w <$> l) +:+ "]".

(** ** Computations with a trace *)

Record Eff (A : Type) := MkEff { res : result A; trace : list event }.
Arguments MkEff {A} res trace.
Arguments res {A} _.
Arguments trace {A} _.

#[global] Instance Eff_ret : MRet Eff := λ A a, MkEff (Ok a) [].

#[global] Instance Eff_bind : MBind Eff := λ A B k m,
  match res m with
  | Ok a => MkEff (res (k a)) (trace m ++ trace (k a))
  | Raise e => MkEff (Raise e) (trace m)
  end.

Definition lift {A} (r : result A) : Eff A := MkEff r [].

Definition raise {A} (e : exn) : Eff A := MkEff (Raise e) [].

Definition emit (ev : event) : Eff unit := MkEff (Ok ()) [ev].

(** [try: body / except Exception as e: handler e]. *)
Definition try_except {A} (body : Eff A) (handler : exn → Eff A) : Eff A :=
  match res body with
  | Ok a => body
  | Raise e => MkEff (res (handler e)) (trace body ++ trace (handler e))
  end.

(** [from moonshot.src.api.api_connector_endpoint import <name>]. *)
Definition import_api (w : World) (name : string) : Eff unit :=
  match import_from_api w name with
  | Some e => raise e
  | None => mret ()
  end.

Definition call_get_all_endpoint (w : World) : Eff (list value) :=
  _ ← emit GetAllEndpoints;
  lift (api_get_all_endpoint w).

Definition call_create_endpoint (w : World) (args : create_args) : Eff value :=
  _ ← emit (CreateEndpoint args);
  lift (api_create_endpoint w args).

Definition print (line : string) : Eff unit := emit (Print line).

(** ** [add_moonshot_to_path] *)

Definition add_moonshot_to_path (w : World) : result bool :=
  if moonshot_dir_exists w then Ok true
  else Raise (Exn RuntimeError
                ("Moonshot directory not found at " +:+ moonshot_dir w)).

(** ** [register_endpoint] *)

(** The keyword arguments, evaluated in the order they are written. *)
Definition create_args_of (config : value) : result create_args :=
  name ← py_getitem config "name";
  connector_type ← py_getitem config "connector_type";
  uri ← py_getitem config "uri";
  token ← py_getitem config "token";
  max_calls_per_second ← py_getitem config "max_calls_per_second";
  max_concurrency ← py_getitem config "max_concurrency";
  model ← py_getitem config "model";
  params ← py_getitem config "params";
  Ok (CreateArgs name connector_type uri token max_calls_per_second
        max_concurrency model params).

(** The two [except] clauses, for the state of [config] when [e] is raised. *)
Definition register_endpoint_handler (w : World) (config : value) (e : exn)
  : Eff value :=
  if is_ImportError e then
    raise (Exn RuntimeError
             ("Failed to import Moonshot modules. Is Moonshot backend installed? Error: "
              +:+ exn_str e))
  else
    name ← lift (py_get config "name" (VStr "unknown"));
    raise (Exn RuntimeError
             ("Failed to register endpoint '" +:+ py_str w name +:+ "': "
              +:+ exn_str e)).

(** One [try] block: the import, the validation, the call.  Validation
    raises before its first [setdefault], so an exception of the import or of
    the validation finds [config] as it was passed; a later one finds it with
    the defaults filled in. *)
Definition register_endpoint (w : World) (config : value) : Eff value :=
  match import_from_api w "api_create_endpoint" with
  | Some e => register_endpoint_handler w config e
  | None =>
      match validate_endpoint_config config with
      | Raise e => register_endpoint_handler w config e
      | Ok config =>
          try_except
            (args ← lift (create_args_of config);
             endpoint_id ← call_create_endpoint w args;
             mret endpoint_id)
            (register_endpoint_handler w config)
      end
  end.

(** ** [check_endpoint_exists] *)

(** [any(ep.get('name') == endpoint_name or ep.get('id') == endpoint_name
         for ep in endpoints)]: stops at the first match. *)
Fixpoint any_endpoint (w : World) (endpoint_name : value) (endpoints : list value)
  : result bool :=
  match endpoints with
  | [] => Ok false
  | ep :: rest =>
      name ← py_get ep "name" VNone;
      if py_eq w name endpoint_name then Ok true
      else
        id ← py_get ep "id" VNone;
        if py_eq w id endpoint_name then Ok true
        else any_endpoint w endpoint_name rest
  end.

Definition check_endpoint_exists (w : World) (endpoint_name : value) : Eff bool :=
  try_except
    (_ ← import_api w "api_get_all_endpoint";
     endpoints ← call_get_all_endpoint w;
     lift (any_endpoint w endpoint_name endpoints))
    (λ e,
       if is_ImportError e then
         raise (Exn RuntimeError
                  ("Failed to import Moonshot modules: " +:+ exn_str e))
       else
         raise (Exn RuntimeError
                  ("Failed to check existing endpoints: " +:+ exn_str e))).

(** ** [get_endpoint_config_from_file] *)

(** [with open(config_path, 'r') as f: return json.load(f)]. *)
Definition open_and_load (w : World) (node : fs_node) : result value :=
  match node with
  | Readable content => json_loads w content
  | Unreadable e => Raise e
  | ExistsRaises e => Raise e
  end.

(** The loop over [possible_files]; [VNone] is Python's [None].  The test
    [config_path.exists()] stands before the [try]: what it raises leaves
    the function as it is. *)
Fixpoint load_first (w : World) (possible_files : list string) : result value :=
  match possible_files with
  | [] => Ok VNone
  | filename :: rest =>
      match file_at w filename with
      | Some (ExistsRaises e) => Raise e
      | Some node =>
          match open_and_load w node with
          | Ok config => Ok config
          | Raise e =>
              Raise (Exn RuntimeError
                       ("Failed to load config from " +:+ config_path w filename
                        +:+ ": " +:+ exn_str e))
          end
      | None => load_first w rest
      end
  end.

Definition possible_files (endpoint_name : string) : list string :=
  [endpoint_name +:+ ".json"; endpoint_name +:+ "-connector.json"].

Definition get_endpoint_config_from_file (w : World) (endpoint_name : string)
  : result value :=
  load_first w (possible_files endpoint_name).

(** ** [list_available_endpoint_configs] *)

(** [name.rfind('.')], counted from the left; [None] is Python's [-1]. *)
Fixpoint rfind_dot (name : string) : option nat :=
  match name with
  | EmptyString => None
  | String c rest =>
      match rfind_dot rest with
      | Some i => Some (S i)
      | None => if Ascii.eqb c "."%char then Some 0 else None
      end
  end.

(** [PurePath.stem] of a file name (pathlib up to Python 3.12): the name
    without its last suffix; a name whose only dot is the first or the last
    character has no suffix. *)
Definition stem (name : string) : string :=
  match rfind_dot name with
  | Some i =>
      if Nat.ltb 0 i && Nat.ltb i (String.length name - 1)%nat
      then String.substring 0 i name
      else name
  | None => name
  end.

(** The entries [data_dir.glob("*.json")] yields: pathlib matches the whole
    name, hidden files included. *)
Definition glob_json (names : list string) : list string :=
  filter (λ name, is_suffix ".json" name) names.

(** Order of [str] comparison: by code point, left to right. *)
Definition str_le (s t : string) : Prop := String.leb s t = true.

#[global] Instance str_le_dec s t : Decision (str_le s t).
Proof. unfold str_le. apply _. Defined.

(** [sorted(configs)]. *)
Definition sorted (configs : list string) : list string :=
  merge_sort str_le configs.

Definition list_available_endpoint_configs (w : World) : list string :=
  match data_dir_listing w with
  | None => []
  | Some names => sorted (stem <$> glob_json names)
  end.

(** ** [register_endpoint_by_name] and [register_custom_endpoint] *)

Definition register_endpoint_by_name (w : World) (endpoint_name : string)
  : Eff string :=
  exists_ ← check_endpoint_exists w (VStr endpoint_name);
  if (exists_ : bool) then
    mret ("Endpoint '" +:+ endpoint_name +:+ "' already registered")
  else
    config ← lift (get_endpoint_config_from_file w endpoint_name);
    if negb (truthy config) then
      let available_configs := list_available_endpoint_configs w in
      raise (Exn RuntimeError
               ("No configuration found for endpoint '" +:+ endpoint_name
                +:+ "'. " +:+ "Available endpoint configs: "
                +:+ py_repr_list w available_configs))
    else
      endpoint_id ← register_endpoint w config;
      mret ("Successfully registered endpoint '" +:+ endpoint_name
            +:+ "' with ID: " +:+ py_str w endpoint_id).

Definition register_custom_endpoint (w : World) (config : value) : Eff string :=
  endpoint_name ← lift (py_get config "name" (VStr "unknown"));
  exists_ ← check_endpoint_exists w endpoint_name;
  if (exists_ : bool) then
    mret ("Endpoint '" +:+ py_str w endpoint_name +:+ "' already registered")
  else
    endpoint_id ← register_endpoint w config;
    mret ("Successfully registered custom endpoint '" +:+ py_str w endpoint_name
          +:+ "' with ID: " +:+ py_str w endpoint_id).

(** ** [list_registered_endpoints] *)

(** The summary built for one endpoint; [ep.get(key)] is [None] when the key
    is absent. *)
Definition summary_of (ep : value) : result value :=
  name ← py_get ep "name" VNone;
  model ← py_get ep "model" VNone;
  connector_type ← py_get ep "connector_type" VNone;
  Ok (VDict (<["connector_type" := connector_type]>
             (<["model" := model]> (<["name" := name]> ∅)))).

Fixpoint summaries (endpoints : list value) : result (list value) :=
  match endpoints with
  | [] => Ok []
  | ep :: rest =>
      s ← summary_of ep;
      others ← summaries rest;
      Ok (s :: others)
  end.

Definition list_registered_endpoints (w : World) : Eff (list value) :=
  try_except
    (_ ← import_api w "api_get_all_endpoint";
     endpoints ← call_get_all_endpoint w;
     lift (summaries endpoints))
    (λ e, raise (Exn RuntimeError
                   ("Failed to list registered endpoints: " +:+ exn_str e))).

(** ** [main] *)

Definition usage_lines : list string :=
  ["Usage:";
   "  python endpoint-manager.py register <endpoint_name>";
   "  python endpoint-manager.py register-json <json_config>";
   "  python endpoint-manager.py list-available";
   "  python endpoint-manager.py list-registered";
   "  python endpoint-manager.py check <endpoint_name>"].

Fixpoint print_configs (configs : list string) : Eff unit :=
  match configs with
  | [] => mret ()
  | config :: rest =>
      _ ← print ("  - " +:+ config);
      print_configs rest
  end.

Fixpoint print_endpoints (w : World) (endpoints : list value) : Eff unit :=
  match endpoints with
  | [] => mret ()
  | ep :: rest =>
      name ← lift (py_getitem ep "name");
      connector_type ← lift (py_getitem ep "connector_type");
      model ← lift (py_getitem ep "model");
      _ ← print ("  - " +:+ py_str w name +:+ " (" +:+ py_str w connector_type
                 +:+ ", " +:+ py_str w model +:+ ")");
      print_endpoints w rest
  end.

(** The body of the [try] block: [command] is [sys.argv[1]], [operands] is
    [sys.argv[2:]], so [len(sys.argv) != 3] says that [operands] is not a
    single word. *)
Definition main_try (w : World) (command : string) (operands : list string)
  : Eff unit :=
  _ ← lift (add_moonshot_to_path w);
  if String.eqb command "register" then
    match operands with
    | [endpoint_name] =>
        result ← register_endpoint_by_name w endpoint_name;
        print result
    | _ => raise (Exn ValueError "Usage: register <endpoint_name>")
    end
  else if String.eqb command "register-json" then
    match operands with
    | [json_config] =>
        config ← lift (json_loads w json_config);
        result ← register_custom_endpoint w config;
        print result
    | _ => raise (Exn ValueError "Usage: register-json <json_config>")
    end
  else if String.eqb command "list-available" then
    let configs := list_available_endpoint_configs w in
    _ ← print "Available endpoint configurations:";
    print_configs configs
  else if String.eqb command "list-registered" then
    endpoints ← list_registered_endpoints w;
    _ ← print "Registered endpoints:";
    print_endpoints w endpoints
  else if String.eqb command "check" then
    match operands with
    | [endpoint_name] =>
        exists_ ← check_endpoint_exists w (VStr endpoint_name);
        print ("Endpoint '" +:+ endpoint_name +:+ "' "
               +:+ (if (exists_ : bool) then "exists" else "does not exist")
               +:+ " in registry")
    | _ => raise (Exn ValueError "Usage: check <endpoint_name>")
    end
  else raise (Exn ValueError ("Unknown command: " +:+ command)).

(** What the process leaves behind. *)
Record outcome := Outcome {
  stdout : list string;
  stderr : list string;
  exit_code : Z;
  api_calls : list event
}.

Definition printed (tr : list event) : list string :=
  omap (λ ev, match ev with Print line => Some line | _ => None end) tr.

Definition backend_calls (tr : list event) : list event :=
  List.filter (λ ev, match ev with Print _ => false | _ => true end) tr.

(** [argv] is [sys.argv], the script's own name first. *)
Definition main (w : World) (argv : list string) : outcome :=
  match argv with
  | [] | [_] => Outcome usage_lines [] 1 []
  | _ :: command :: operands =>
      let run := main_try w command operands in
      match res run with
      | Ok _ => Outcome (printed (trace run)) [] 0 (backend_calls (trace run))
      | Raise e =>
          Outcome (printed (trace run)) ["ERROR: " +:+ exn_str e] 1
                  (backend_calls (trace run))
      end
  end.

(** Whether a trace holds a call of the creation API. *)
Definition calls_create (tr : list event) : bool :=
  existsb (λ ev, match ev with CreateEndpoint _ => true | _ => false end) tr.

(** ** Specification-side notions *)

(** The defaults as a map. *)
Definition defaults_map : gmap string value := list_to_map optional_defaults.

(** A mapping with the defaults filled in where a key is absent. *)
Definition with_defaults (d : gmap string value) : gmap string value :=
  d ∪ defaults_map.

(** ** Sample inputs *)

(** A configuration with the three required keys and nothing else. *)
Definition config_required_only : gmap string value :=
  {[ "name" := VStr "gpt4";
     "connector_type" := VStr "openai-connector";
     "model" := VStr "gpt-4" ]}.

(** The same with two optional keys supplied, both falsy. *)
Definition config_with_falsy : gmap string value :=
  <["token" := VStr ""]> (<["max_concurrency" := VInt 0]> config_required_only).

(** A configuration without [model]. *)
Definition config_missing_model : gmap string value :=
  {[ "name" := VStr "gpt4"; "connector_type" := VStr "openai-connector" ]}.

(** A text between double quotes, as JSON writes a string. *)
Definition quoted (s : string) : string :=
  String dquote s +:+ String dquote "".

(** The inline configuration [{<q>name<q>:<q>x<q>}], [<q>] a double quote. *)
Definition json_name_x : string :=
  "{" +:+ quoted "name" +:+ ":" +:+ quoted "x" +:+ "}".

Definition config_name_x : gmap string value := {[ "name" := VStr "x" ]}.

(** The text of a complete configuration file for the endpoint [llama]. *)
Definition llama_text : string :=
  "{" +:+ quoted "name" +:+ ": " +:+ quoted "llama" +:+ ", "
  +:+ quoted "connector_type" +:+ ": " +:+ quoted "ollama-connector" +:+ ", "
  +:+ quoted "model" +:+ ": " +:+ quoted "llama3" +:+ "}".

Definition config_llama : gmap string value :=
  {[ "name" := VStr "llama";
     "connector_type" := VStr "ollama-connector";
     "model" := VStr "llama3" ]}.

(** A parser that knows the texts above and rejects every other one. *)
Definition sample_json_loads (text : string) : result value :=
  if String.eqb text json_name_x then Ok (VDict config_name_x)
  else if String.eqb text llama_text then Ok (VDict config_llama)
  else Raise (Exn JSONDecodeError "Expecting value: line 1 column 1 (char 0)").

(** [str()] and [==] on scalars; the samples hold no other value. *)
Definition sample_str (v : value) : string :=
  match v with
  | VNone => "None"
  | VBool true => "True"
  | VBool false => "False"
  | VInt n => pretty n
  | VFloat r => r
  | VStr s => s
  | VList _ => "[...]"
  | VDict _ => "{...}"
  end.

Definition sample_eq (a b : value) : bool :=
  match a, b with
  | VNone, VNone => true
  | VBool x, VBool y => Bool.eqb x y
  | VInt n, VInt m => Z.eqb n m
  | VBool x, VInt n | VInt n, VBool x => Z.eqb n (if x then 1 else 0)
  | VFloat r, VFloat r' => String.eqb r r'
  | _, _ => false
  end.

(** The record the backend holds for an endpoint registered as [gpt4]. *)
Definition registered_gpt4 : value :=
  VDict {[ "id" := VStr "gpt4";
           "name" := VStr "GPT 4";
           "connector_type" := VStr "openai-connector";
           "model" := VStr "gpt-4" ]}.

(** A healthy installation: the backend is importable and holds one
    endpoint, the data directory holds the configuration of [llama] and a
    file that is not JSON. *)
Definition sample_world : World := {|
  moonshot_dir := "/srv/revised-moonshot";
  moonshot_dir_exists := true;
  import_from_api := λ _, None;
  api_get_all_endpoint := Ok [registered_gpt4];
  api_create_endpoint := λ args, Ok (arg_name args);
  data_dir_listing := Some ["llama.json"; "broken.json"; "README.md"];
  file_at := λ filename,
    if String.eqb filename "llama.json" then Some (Readable llama_text)
    else if String.eqb filename "broken.json" then Some (Readable "not json")
    else None;
  config_path := λ filename,
    "/srv/revised-moonshot-data/connectors-endpoints/" +:+ filename;
  json_loads := sample_json_loads;
  runtime_str := sample_str;
  runtime_eq := sample_eq;
  runtime_repr := py_repr_str
|}.



(** The same installation with another outcome of the backend imports. *)
Definition with_import (w : World) (import : string → option exn) : World := {|
  moonshot_dir := moonshot_dir w;
  moonshot_dir_exists := moonshot_dir_exists w;
  import_from_api := import;
  api_get_all_endpoint := api_get_all_endpoint w;
  api_create_endpoint := api_create_endpoint w;
  data_dir_listing := data_dir_listing w;
  file_at := file_at w;
  config_path := config_path w;
  json_loads := json_loads w;
  runtime_str := runtime_str w;
  runtime_eq := runtime_eq w;
  runtime_repr := runtime_repr w
|}.

(** The same installation with another creation function. *)
Definition with_create (w : World) (create : create_args → result value)
  : World := {|
  moonshot_dir := moonshot_dir w;
  moonshot_dir_exists := moonshot_dir_exists w;
  import_from_api := import_from_api w;
  api_get_all_endpoint := api_get_all_endpoint w;
  api_create_endpoint := create;
  data_dir_listing := data_dir_listing w;
  file_at := file_at w;
  config_path := config_path w;
  json_loads := json_loads w;
  runtime_str := runtime_str w;
  runtime_eq := runtime_eq w;
  runtime_repr := runtime_repr w
|}.

(** The backend package is not importable. *)
Definition offline_world : World :=
  with_import sample_world
    (λ _, Some (Exn ImportError "No module named 'moonshot'")).

(** The backend refuses every creation. *)
Definition refusing_world : World :=
  with_create sample_world
    (λ _, Raise (Exn OtherException "connector type not supported")).

(** The name a configuration mapping is reported under: [str] of
    [config.get('name', 'unknown')]. *)
Definition reported_name (w : World) (d : gmap string value) : string :=
  py_str w (match d !! "name" with Some v => v | None => VStr "unknown" end).

(** The keyword arguments a validated mapping is registered with. *)
Definition args_of_dict (d : gmap string value) : create_args :=
  let field k := default VNone (with_defaults d !! k) in
  CreateArgs (field "name") (field "connector_type") (field "uri")
    (field "token") (field "max_calls_per_second") (field "max_concurrency")
    (field "model") (field "params").

(** A computation that prints nothing. *)
Definition silent {A} (m : Eff A) : Prop := printed (trace m) = [].

(** An endpoint summary as [list_registered_endpoints] builds it. *)
Definition is_summary (ep : value) : Prop :=
  ∃ name model connector_type,
    ep = VDict (<["connector_type" := connector_type]>
                (<["model" := model]> (<["name" := name]> ∅))).

(** The [ERROR:] line of an invocation with a command and no operand,
    for a command other than [list-available] and [list-registered]. *)
Definition one_argument_error (w : World) (command : string) : string :=
  if moonshot_dir_exists w then
    if String.eqb command "register" then "Usage: register <endpoint_name>"
    else if String.eqb command "register-json"
    then "Usage: register-json <json_config>"
    else if String.eqb command "check" then "Usage: check <endpoint_name>"
    else "Unknown command: " +:+ command
  else "Moonshot directory not found at " +:+ moonshot_dir w.


(** The name [register_custom_endpoint] looks up for a mapping. *)
Definition name_or_unknown (d : gmap string value) : value :=
  match d !! "name" with Some v => v | None => VStr "unknown" end.


(** An entry of the registry whose [name] or [id] equals the requested name. *)
Definition matches (w : World) (endpoint_name ep : value) : Prop :=
  ∃ name id, py_get ep "name" VNone = Ok name
    ∧ py_get ep "id" VNone = Ok id
    ∧ (py_eq w name endpoint_name = true ∨ py_eq w id endpoint_name = true).

(** The outcome of the first candidate the existence test does not
    answer false for: the parsed value, the read/parse error wrapped with
    the path, or the exception of the existence test itself. *)
Definition load_result (w : World) (filename : string) (node : fs_node)
  : result value :=
  match node with
  | ExistsRaises e => Raise e
  | _ =>
      match open_and_load w node with
      | Ok config => Ok config
      | Raise e =>
          Raise (Exn RuntimeError
                   ("Failed to load config from " +:+ config_path w filename
                    +:+ ": " +:+ exn_str e))
      end
  end.

(** Evaluates the comparisons of two literal strings in the goal. *)
Ltac eval_eqb :=
  repeat match goal with
  | |- context [String.eqb ?a ?b] =>
      let r := eval vm_compute in (String.eqb a b) in
      lazymatch r with
      | true => change (String.eqb a b) with true
      | false => change (String.eqb a b) with false
      end
  end; cbn match.

(** ** Further notions and samples *)

(** A mapping, as opposed to any other JSON value. *)
Definition is_mapping (v : value) : Prop := ∃ d, v = VDict d.

(** [ep.get(key)] on a mapping. *)
Definition get_or_None (d : gmap string value) (key : string) : value :=
  match d !! key with Some v => v | None => VNone end.

(** A registry entry that is a mapping and has neither [name] nor [id]
    equal to the requested name. *)
Definition differs (w : World) (endpoint_name ep : value) : Prop :=
  ∃ d, ep = VDict d
    ∧ py_eq w (get_or_None d "name") endpoint_name = false
    ∧ py_eq w (get_or_None d "id") endpoint_name = false.


(** The mapping inside a value; empty for a value that is none. *)
Definition mapping_of (v : value) : gmap string value :=
  match v with VDict d => d | _ => ∅ end.

(** The shapes of the calls a run makes into the backend. *)
Inductive call_shape : list event → Prop :=
| no_call : call_shape []
| listing_only : call_shape [GetAllEndpoints]
| listing_then_creation args :
    call_shape [GetAllEndpoints; CreateEndpoint args].

(** The same installation without its Moonshot directory, or with it. *)
Definition with_directory (w : World) (present : bool) : World := {|
  moonshot_dir := moonshot_dir w;
  moonshot_dir_exists := present;
  import_from_api := import_from_api w;
  api_get_all_endpoint := api_get_all_endpoint w;
  api_create_endpoint := api_create_endpoint w;
  data_dir_listing := data_dir_listing w;
  file_at := file_at w;
  config_path := config_path w;
  json_loads := json_loads w;
  runtime_str := runtime_str w;
  runtime_eq := runtime_eq w;
  runtime_repr := runtime_repr w
|}.

(** The same installation with another answer of the listing call. *)
Definition with_registry (w : World) (registry : result (list value)) : World := {|
  moonshot_dir := moonshot_dir w;
  moonshot_dir_exists := moonshot_dir_exists w;
  import_from_api := import_from_api w;
  api_get_all_endpoint := registry;
  api_create_endpoint := api_create_endpoint w;
  data_dir_listing := data_dir_listing w;
  file_at := file_at w;
  config_path := config_path w;
  json_loads := json_loads w;
  runtime_str := runtime_str w;
  runtime_eq := runtime_eq w;
  runtime_repr := runtime_repr w
|}.

(** The same installation with other files and another parser. *)
Definition with_files (w : World) (files : string → option fs_node)
    (loads : string → result value) : World := {|
  moonshot_dir := moonshot_dir w;
  moonshot_dir_exists := moonshot_dir_exists w;
  import_from_api := import_from_api w;
  api_get_all_endpoint := api_get_all_endpoint w;
  api_create_endpoint := api_create_endpoint w;
  data_dir_listing := data_dir_listing w;
  file_at := files;
  config_path := config_path w;
  json_loads := loads;
  runtime_str := runtime_str w;
  runtime_eq := runtime_eq w;
  runtime_repr := runtime_repr w
|}.

(** The Moonshot directory is missing. *)
Definition nodir_world : World := with_directory sample_world false.

(** A registry whose second entry is not a mapping. *)
Definition odd_registry_world : World :=
  with_registry sample_world (Ok [registered_gpt4; VList []]).

(** The file [empty.json] holds the empty object, [list.json] a list. *)
Definition odd_files_world : World :=
  with_files sample_world
    (λ filename,
       if String.eqb filename "empty.json" then Some (Readable "{}")
       else if String.eqb filename "list.json" then Some (Readable "[1]")
       else None)
    (λ text,
       if String.eqb text "{}" then Ok (VDict ∅)
       else if String.eqb text "[1]" then Ok (VList [VInt 1])
       else sample_json_loads text).

(** The summary [list_registered_endpoints] keeps of a registry entry. *)
Definition summary_map (d : gmap string value) : gmap string value :=
  <["connector_type" := get_or_None d "connector_type"]>
    (<["model" := get_or_None d "model"]>
       (<["name" := get_or_None d "name"]> ∅)).

(** The message the validation is to raise, written out for each set of
    absent required fields: the absent ones, in the order [name],
    [connector_type], [model]. *)
Definition missing_fields_message (name connector_type model : bool) : string :=
  match name, connector_type, model with
  | true, true, true =>
      "Missing required fields in endpoint config: ['name', 'connector_type', 'model']"
  | true, true, false =>
      "Missing required fields in endpoint config: ['name', 'connector_type']"
  | true, false, true =>
      "Missing required fields in endpoint config: ['name', 'model']"
  | true, false, false =>
      "Missing required fields in endpoint config: ['name']"
  | false, true, true =>
      "Missing required fields in endpoint config: ['connector_type', 'model']"
  | false, true, false =>
      "Missing required fields in endpoint config: ['connector_type']"
  | false, false, true =>
      "Missing required fields in endpoint config: ['model']"
  | false, false, false =>
      "Missing required fields in endpoint config: []"
  end.



(** The backend module is importable, the listing function too, but the
    module has no creation function. *)
Definition no_creation_world : World :=
  with_import sample_world
    (λ name,
       if String.eqb name "api_create_endpoint" then
         Some (Exn ImportError
                 "cannot import name 'api_create_endpoint' from 'moonshot.src.api.api_connector_endpoint'")
       else None).

(** * Validation *)

Section validation.
Implicit Types (d : gmap string value) (k f : string) (v : value).

Lemma missing_in_dict fields d :
  missing_in fields (VDict d) = Ok (filter (λ f, d !! f = None) fields).
Proof.
  induction fields as [|f fields IH]; [done|].
  rewrite filter_cons. cbn [missing_in py_contains]. rewrite IH.
  cbn [mbind result_bind]. destruct (d !! f) eqn:Hf.
  - rewrite bool_decide_eq_true_2 by eauto. by rewrite decide_False.
  - rewrite bool_decide_eq_false_2 by (intros [? ?]; done).
    by rewrite decide_True.
Qed.

Lemma filter_nil_iff {A} (P : A → Prop) `{∀ x, Decision (P x)} (l : list A) :
  filter P l = [] ↔ ∀ x, x ∈ l → ¬ P x.
Proof.
  split.
  - intros Hnil x Hx HP. by eapply filter_nil_not_elem_of.
  - intros Hl. destruct (filter P l) as [|x rest] eqn:Hf; [done|].
    assert (Hx : x ∈ filter P l) by (rewrite Hf; apply list_elem_of_here).
    apply list_elem_of_filter in Hx as [HP Hx]. by destruct (Hl x).
Qed.

Lemma setdefault_union d k v :
  match d !! k with Some _ => d | None => <[k := v]> d end = d ∪ {[k := v]}.
Proof.
  apply map_eq. intros i. rewrite lookup_union.
  destruct (d !! k) eqn:Hk.
  - destruct (decide (k = i)) as [->|Hne].
    + rewrite Hk, lookup_singleton_eq. done.
    + rewrite lookup_singleton_ne by done. by destruct (d !! i).
  - destruct (decide (k = i)) as [->|Hne].
    + rewrite lookup_insert_eq, Hk, lookup_singleton_eq. done.
    + rewrite lookup_insert_ne, lookup_singleton_ne by done.
      by destruct (d !! i).
Qed.

Lemma defaults_map_unfold :
  defaults_map =
  ((((({[ "uri" := VStr "" ]} : gmap string value) ∪ {[ "token" := VStr "" ]})
     ∪ {[ "max_calls_per_second" := VInt 2 ]})
    ∪ {[ "max_concurrency" := VInt 1 ]})
   ∪ {[ "params" := VDict ∅ ]}).
Proof.
  apply map_eq. intros i. unfold defaults_map, optional_defaults.
  cbn [list_to_map foldr uncurry fst snd].
  rewrite !lookup_union, !lookup_insert, !lookup_singleton, lookup_empty.
  repeat case_decide; subst; try done.
Qed.

(** What the five [setdefault] calls leave. *)
Lemma fill_defaults d :
  (config ← py_setdefault (VDict d) "uri" (VStr "");
   config ← py_setdefault config "token" (VStr "");
   config ← py_setdefault config "max_calls_per_second" (VInt 2);
   config ← py_setdefault config "max_concurrency" (VInt 1);
   config ← py_setdefault config "params" (VDict ∅);
   Ok config) = Ok (VDict (with_defaults d)).
Proof.
  unfold py_setdefault. cbn [mbind result_bind].
  rewrite !setdefault_union. unfold with_defaults.
  rewrite defaults_map_unfold. f_equal. f_equal.
  by rewrite !(assoc_L (∪)).
Qed.

(** The function on a mapping, in closed form. *)
Lemma validate_dict d :
  validate_endpoint_config (VDict d) =
  match filter (λ f, d !! f = None) required_fields with
  | [] => Ok (VDict (with_defaults d))
  | missing =>
      Raise (Exn ValueError
               ("Missing required fields in endpoint config: "
                +:+ py_repr_str_list missing))
  end.
Proof.
  unfold validate_endpoint_config. rewrite missing_in_dict.
  cbn [mbind result_bind].
  destruct (filter _ required_fields); [apply fill_defaults | done].
Qed.

Lemma lookup_with_defaults d k :
  with_defaults d !! k =
  match d !! k with Some v => Some v | None => defaults_map !! k end.
Proof. unfold with_defaults. rewrite lookup_union. by destruct (d !! k), (defaults_map !! k). Qed.

Lemma defaults_map_lookup k v :
  defaults_map !! k = Some v ↔ (k, v) ∈ optional_defaults.
Proof.
  unfold defaults_map. split.
  - apply elem_of_list_to_map_2.
  - apply elem_of_list_to_map_1. by apply (bool_decide_unpack _).
Qed.

End validation.

(** C2: a mapping with exactly the keys [name], [connector_type] and [model]
    passes validation, and afterwards holds [uri=''], [token=''],
    [max_calls_per_second=2], [max_concurrency=1] and [params={}] next to the
    three required keys, whose values are unchanged, and no other key. *)
Theorem validate_required_only (d : gmap string value) :
  dom d = list_to_set required_fields →
  ∃ d', validate_endpoint_config (VDict d) = Ok (VDict d')
    ∧ d' !! "uri" = Some (VStr "")
    ∧ d' !! "token" = Some (VStr "")
    ∧ d' !! "max_calls_per_second" = Some (VInt 2)
    ∧ d' !! "max_concurrency" = Some (VInt 1)
    ∧ d' !! "params" = Some (VDict ∅)
    ∧ d' !! "name" = d !! "name"
    ∧ d' !! "connector_type" = d !! "connector_type"
    ∧ d' !! "model" = d !! "model"
    ∧ dom d' = list_to_set (required_fields ++ optional_defaults.*1).
Proof.
  intros Hdom.
  assert (Hin : ∀ k, is_Some (d !! k) ↔ k ∈ required_fields).
  { intros k. rewrite <- elem_of_dom, Hdom. apply elem_of_list_to_set. }
  assert (Hnone : ∀ k, k ∉ required_fields → d !! k = None).
  { intros k Hk. apply eq_None_not_Some. by rewrite Hin. }
  assert (Hall : filter (λ f, d !! f = None) required_fields = []).
  { apply filter_nil_iff. intros f Hf Hno.
    apply Hin in Hf as [v Hv]. congruence. }
  exists (with_defaults d). rewrite validate_dict, Hall.
  split; [done|].
  rewrite !lookup_with_defaults.
  rewrite (Hnone "uri"), (Hnone "token"), (Hnone "max_calls_per_second"),
    (Hnone "max_concurrency"), (Hnone "params")
    by (apply (bool_decide_unpack _); by vm_compute).
  destruct (Hin "name") as [_ [? ->]];
    [by apply (bool_decide_unpack _)|].
  destruct (Hin "connector_type") as [_ [? ->]];
    [by apply (bool_decide_unpack _)|].
  destruct (Hin "model") as [_ [? ->]];
    [by apply (bool_decide_unpack _)|].
  split_and!; try done.
  unfold with_defaults, defaults_map.
  by rewrite dom_union_L, Hdom, list_to_set_app_L, dom_list_to_map_L.
Qed.

Lemma validate_required_only_witness :
  ∃ d', validate_endpoint_config (VDict config_required_only) = Ok (VDict d')
    ∧ d' !! "uri" = Some (VStr "")
    ∧ d' !! "token" = Some (VStr "")
    ∧ d' !! "max_calls_per_second" = Some (VInt 2)
    ∧ d' !! "max_concurrency" = Some (VInt 1)
    ∧ d' !! "params" = Some (VDict ∅)
    ∧ d' !! "name" = config_required_only !! "name"
    ∧ d' !! "connector_type" = config_required_only !! "connector_type"
    ∧ d' !! "model" = config_required_only !! "model"
    ∧ dom d' = list_to_set (required_fields ++ optional_defaults.*1).
Proof.
  apply (validate_required_only config_required_only).
  vm_compute. reflexivity.
Defined.

(** The message of a run on a configuration without [model]. *)
Example validate_missing_model_message :
  validate_endpoint_config (VDict config_missing_model) =
  Raise (Exn ValueError "Missing required fields in endpoint config: ['model']").
Proof. vm_compute. reflexivity. Qed.

Section missing_message.
Implicit Types (d : gmap string value).

Lemma missing_by_absence d :
  filter (λ f, d !! f = None) required_fields =
  (if bool_decide (d !! "name" = None) then ["name"] else [])
  ++ (if bool_decide (d !! "connector_type" = None)
      then ["connector_type"] else [])
  ++ (if bool_decide (d !! "model" = None) then ["model"] else []).
Proof.
  unfold required_fields. rewrite !filter_cons, filter_nil.
  by destruct (d !! "name"), (d !! "connector_type"), (d !! "model").
Qed.

(** The message of a failed validation, by the fields that are absent. *)
Lemma validate_message d e :
  validate_endpoint_config (VDict d) = Raise e →
  e = Exn ValueError
        (missing_fields_message (bool_decide (d !! "name" = None))
           (bool_decide (d !! "connector_type" = None))
           (bool_decide (d !! "model" = None))).
Proof.
  rewrite validate_dict, missing_by_absence.
  destruct (bool_decide (d !! "name" = None)),
    (bool_decide (d !! "connector_type" = None)),
    (bool_decide (d !! "model" = None)); cbn [app]; intros He;
    first [discriminate He|injection He as <-; vm_compute; reflexivity].
Qed.

End missing_message.

(** C3: validation of a mapping fails exactly when one of [name],
    [connector_type], [model] is absent; the failure is a [ValueError] whose
    message is [Missing required fields in endpoint config: ] followed by the
    list of the absent required keys, in the order [name], [connector_type],
    [model], each between single quotes: the quoted name of a required field
    occurs in the message exactly when the field is absent (so a
    configuration without [model] has ['model'] in it); when the three are
    present, validation succeeds and every optional field holds the caller's
    value or, when absent, its default. *)
Theorem validate_fails_iff_missing (d : gmap string value) :
  let missing := filter (λ f, d !! f = None) required_fields in
  (∀ f, f ∈ missing ↔ f ∈ required_fields ∧ d !! f = None)
  ∧ ((∃ e, validate_endpoint_config (VDict d) = Raise e)
     ↔ ∃ f, f ∈ required_fields ∧ d !! f = None)
  ∧ ((∃ f, f ∈ required_fields ∧ d !! f = None) →
     validate_endpoint_config (VDict d) =
     Raise (Exn ValueError
              ("Missing required fields in endpoint config: "
               +:+ py_repr_str_list missing)))
  ∧ (d !! "model" = None → "model" ∈ missing)
  ∧ ((∀ f, f ∈ required_fields → is_Some (d !! f)) →
     ∃ d', validate_endpoint_config (VDict d) = Ok (VDict d')
       ∧ ∀ k v, (k, v) ∈ optional_defaults →
                d' !! k = Some (default v (d !! k)))
  ∧ (∀ e, validate_endpoint_config (VDict d) = Raise e →
       e = Exn ValueError
             (missing_fields_message (bool_decide (d !! "name" = None))
                (bool_decide (d !! "connector_type" = None))
                (bool_decide (d !! "model" = None)))
       ∧ (is_substring "'name'" (exn_str e) = true ↔ d !! "name" = None)
       ∧ (is_substring "'connector_type'" (exn_str e) = true
          ↔ d !! "connector_type" = None)
       ∧ (is_substring "'model'" (exn_str e) = true ↔ d !! "model" = None)).
Proof.
  intros missing.
  assert (Hmem : ∀ f, f ∈ missing ↔ f ∈ required_fields ∧ d !! f = None).
  { intros f. unfold missing. rewrite list_elem_of_filter. tauto. }
  assert (Hfail : (∃ f, f ∈ required_fields ∧ d !! f = None) →
                  validate_endpoint_config (VDict d) =
                  Raise (Exn ValueError
                           ("Missing required fields in endpoint config: "
                            +:+ py_repr_str_list missing))).
  { intros [f Hf]. apply Hmem in Hf. rewrite validate_dict. fold missing.
    destruct missing; [by apply not_elem_of_nil in Hf | done]. }
  assert (Hok : (∀ f, f ∈ required_fields → is_Some (d !! f)) →
                validate_endpoint_config (VDict d) = Ok (VDict (with_defaults d))).
  { intros Hall. rewrite validate_dict.
    replace (filter _ required_fields) with (@nil string); [done|].
    symmetry. apply filter_nil_iff. intros f Hf Hno.
    destruct (Hall f Hf) as [v Hv]. congruence. }
  split_and!; [done| |done| | |].
  - split.
    + intros [e He].
      destruct (decide (Forall (λ f, is_Some (d !! f)) required_fields))
        as [Hall|Hnot].
      * rewrite Hok in He; [done|]. intros f Hf.
        by eapply Forall_forall in Hall.
      * apply not_Forall_Exists in Hnot; [|apply _].
        apply Exists_exists in Hnot as (f & Hf & Hno).
        exists f. split; [done|]. by apply eq_None_not_Some.
    + intros Hex. rewrite Hfail by done. eauto.
  - intros Hmodel. apply Hmem. split; [|done].
    by apply (bool_decide_unpack _).
  - intros Hall. exists (with_defaults d). split; [by apply Hok|].
    intros k v Hkv. rewrite lookup_with_defaults.
    destruct (d !! k); [done|]. by apply defaults_map_lookup.
  - intros e He. pose proof (validate_message d e He) as ->.
    split; [done|]. cbn [exn_str].
    rewrite validate_dict, missing_by_absence in He.
    destruct (d !! "name") as [vn|], (d !! "connector_type") as [vc|],
      (d !! "model") as [vm|]; try discriminate He;
      (split_and!; split; intros Hside;
       first [reflexivity|discriminate Hside
             |vm_compute; reflexivity|vm_compute in Hside; discriminate Hside]).
Qed.

Lemma validate_fails_iff_missing_witness :
  validate_endpoint_config (VDict config_missing_model) =
    Raise (Exn ValueError
             "Missing required fields in endpoint config: ['model']")
  ∧ is_substring "'model'"
      "Missing required fields in endpoint config: ['model']" = true
  ∧ is_substring "'name'"
      "Missing required fields in endpoint config: ['model']" = false.
Proof.
  destruct (validate_fails_iff_missing config_missing_model)
    as (_ & _ & _ & _ & _ & Hmessage).
  destruct (Hmessage (Exn ValueError
              "Missing required fields in endpoint config: ['model']"))
    as (_ & Hname & _ & Hmodel); [vm_compute; reflexivity|].
  cbn [exn_str] in Hname, Hmodel.
  split_and!.
  - vm_compute. reflexivity.
  - apply Hmodel. vm_compute. reflexivity.
  - destruct (is_substring "'name'"
                "Missing required fields in endpoint config: ['model']")
      eqn:Hsub; [|reflexivity].
    destruct Hname as [Habsent _]. specialize (Habsent eq_refl).
    vm_compute in Habsent. discriminate Habsent.
Defined.

(** C10: when a mapping passes validation, every key it held keeps its
    value, whatever the value, and the only keys added are absent optional
    fields with their defaults. *)
Theorem validate_keeps_supplied_values (d : gmap string value) (config' : value) :
  validate_endpoint_config (VDict d) = Ok config' →
  ∃ d', config' = VDict d'
    ∧ (∀ k v, d !! k = Some v → d' !! k = Some v)
    ∧ (∀ k v, d !! k = None → d' !! k = Some v → (k, v) ∈ optional_defaults).
Proof.
  rewrite validate_dict.
  destruct (filter _ required_fields); [|done].
  intros [= <-]. exists (with_defaults d). split; [done|].
  split; intros k v Hk; rewrite lookup_with_defaults, Hk; [done|].
  apply defaults_map_lookup.
Qed.

Lemma validate_keeps_supplied_values_witness :
  ∃ d', with_defaults config_with_falsy = d'
    ∧ d' !! "token" = Some (VStr "")
    ∧ d' !! "max_concurrency" = Some (VInt 0)
    ∧ (∀ k v, config_with_falsy !! k = Some v → d' !! k = Some v)
    ∧ (∀ k v, config_with_falsy !! k = None → d' !! k = Some v →
              (k, v) ∈ optional_defaults).
Proof.
  destruct (validate_keeps_supplied_values config_with_falsy
              (VDict (with_defaults config_with_falsy)))
    as (d' & Heq & Hkeep & Hadd).
  - vm_compute. reflexivity.
  - injection Heq as <-. exists (with_defaults config_with_falsy).
    split; [reflexivity|]. split; [vm_compute; reflexivity|].
    split; [vm_compute; reflexivity|]. split; assumption.
Defined.

(** * Existence check and registration *)

Section registration.
Context (w : World).
Implicit Types (endpoint_name config ep : value) (s : string).

Lemma any_endpoint_true endpoint_name endpoints :
  any_endpoint w endpoint_name endpoints = Ok true →
  ∃ ep, ep ∈ endpoints ∧ matches w endpoint_name ep.
Proof.
  induction endpoints as [|ep rest IH]; [done|].
  cbn [any_endpoint]. unfold matches.
  destruct ep as [| | | | | |d]; try done. cbn [py_get mbind result_bind].
  destruct (py_eq w match d !! "name" with Some v => v | None => VNone end
              endpoint_name) eqn:Hn.
  { intros _. exists (VDict d). split; [apply list_elem_of_here|].
    cbn [py_get]. eauto 6. }
  destruct (py_eq w match d !! "id" with Some v => v | None => VNone end
              endpoint_name) eqn:Hi.
  { intros _. exists (VDict d). split; [apply list_elem_of_here|].
    cbn [py_get]. eauto 6. }
  intros Hrest. destruct (IH Hrest) as (ep & Hep & Hm).
  exists ep. split; [by apply list_elem_of_further|done].
Qed.

(** The existence check in closed form. *)
Lemma check_endpoint_exists_unfold endpoint_name :
  check_endpoint_exists w endpoint_name =
  match import_from_api w "api_get_all_endpoint" with
  | Some e =>
      MkEff (Raise (Exn RuntimeError
                      ((if is_ImportError e
                        then "Failed to import Moonshot modules: "
                        else "Failed to check existing endpoints: ")
                       +:+ exn_str e))) []
  | None =>
      match endpoints ← api_get_all_endpoint w;
            any_endpoint w endpoint_name endpoints with
      | Ok b => MkEff (Ok b) [GetAllEndpoints]
      | Raise e =>
          MkEff (Raise (Exn RuntimeError
                          ((if is_ImportError e
                            then "Failed to import Moonshot modules: "
                            else "Failed to check existing endpoints: ")
                           +:+ exn_str e))) [GetAllEndpoints]
      end
  end.
Proof.
  unfold check_endpoint_exists, try_except, import_api,
    call_get_all_endpoint, emit, lift, raise.
  destruct (import_from_api w "api_get_all_endpoint") as [e|]; cbn.
  { by destruct (is_ImportError e). }
  destruct (api_get_all_endpoint w) as [endpoints|e]; cbn.
  - destruct (any_endpoint w endpoint_name endpoints) as [b|e]; cbn; [done|].
    by destruct (is_ImportError e).
  - by destruct (is_ImportError e).
Qed.

Lemma check_endpoint_exists_trace endpoint_name b :
  res (check_endpoint_exists w endpoint_name) = Ok b →
  trace (check_endpoint_exists w endpoint_name) = [GetAllEndpoints].
Proof.
  rewrite check_endpoint_exists_unfold.
  destruct (import_from_api w _); [done|].
  by destruct (_ ← api_get_all_endpoint w; _).
Qed.

Lemma check_endpoint_exists_no_create endpoint_name :
  calls_create (trace (check_endpoint_exists w endpoint_name)) = false.
Proof.
  rewrite check_endpoint_exists_unfold.
  destruct (import_from_api w _); [done|].
  by destruct (_ ← api_get_all_endpoint w; _).
Qed.

Lemma check_endpoint_exists_true endpoint_name :
  res (check_endpoint_exists w endpoint_name) = Ok true →
  ∃ endpoints ep, api_get_all_endpoint w = Ok endpoints
    ∧ ep ∈ endpoints ∧ matches w endpoint_name ep.
Proof.
  rewrite check_endpoint_exists_unfold.
  destruct (import_from_api w _); [done|].
  destruct (api_get_all_endpoint w) as [endpoints|e]; cbn; [|done].
  destruct (any_endpoint w endpoint_name endpoints) as [b|e] eqn:Hany;
    cbn; [|done].
  intros [= ->]. exists endpoints.
  destruct (any_endpoint_true _ _ Hany) as (ep & ? & ?). eauto.
Qed.

Lemma register_endpoint_handler_trace config e :
  trace (register_endpoint_handler w config e) = [].
Proof.
  unfold register_endpoint_handler.
  destruct (is_ImportError e); [done|].
  by destruct (py_get config "name" (VStr "unknown")).
Qed.

(** The registrar calls the backend at most once, and only to create. *)
Lemma register_endpoint_trace config :
  trace (register_endpoint w config) = []
  ∨ ∃ args, trace (register_endpoint w config) = [CreateEndpoint args].
Proof.
  unfold register_endpoint.
  destruct (import_from_api w _);
    [left; apply register_endpoint_handler_trace|].
  destruct (validate_endpoint_config config) as [config'|e];
    [|left; apply register_endpoint_handler_trace].
  unfold try_except, call_create_endpoint, emit, lift.
  destruct (create_args_of config') as [args|e]; cbn.
  - right. exists args.
    destruct (api_create_endpoint w args); cbn; [done|].
    by rewrite register_endpoint_handler_trace.
  - left. by rewrite register_endpoint_handler_trace.
Qed.

End registration.

Section registration_order.
Context (w : World).

Lemma bind_Ok {A B} (m : Eff A) (k : A → Eff B) a :
  res m = Ok a → m ≫= k = MkEff (res (k a)) (trace m ++ trace (k a)).
Proof. unfold mbind, Eff_bind. by intros ->. Qed.

Lemma bind_Raise {A B} (m : Eff A) (k : A → Eff B) e :
  res m = Raise e → m ≫= k = MkEff (Raise e) (trace m).
Proof. unfold mbind, Eff_bind. by intros ->. Qed.

(** What is left to do once the existence check has answered. *)
Lemma after_check {B} endpoint_name (k : bool → Eff B) :
  calls_create (trace (check_endpoint_exists w endpoint_name ≫= k)) = true →
  ∃ b, res (check_endpoint_exists w endpoint_name) = Ok b
    ∧ trace (check_endpoint_exists w endpoint_name ≫= k)
      = GetAllEndpoints :: trace (k b)
    ∧ calls_create (trace (k b)) = true.
Proof.
  destruct (res (check_endpoint_exists w endpoint_name)) as [b|e] eqn:Hres.
  - rewrite (bind_Ok _ _ _ Hres). cbn [trace].
    rewrite (check_endpoint_exists_trace _ _ _ Hres). cbn.
    intros Hk. exists b. done.
  - rewrite (bind_Raise _ _ _ Hres). cbn [trace].
    by rewrite check_endpoint_exists_no_create.
Qed.

Lemma register_endpoint_then_message config (msg : value → string) :
  calls_create
    (trace (endpoint_id ← register_endpoint w config; mret (msg endpoint_id)))
  = true →
  ∃ args,
    trace (endpoint_id ← register_endpoint w config; mret (msg endpoint_id))
    = [CreateEndpoint args].
Proof.
  destruct (res (register_endpoint w config)) as [endpoint_id|e] eqn:Hres.
  - rewrite (bind_Ok _ _ _ Hres). cbn [trace mret Eff_ret].
    rewrite app_nil_r.
    destruct (register_endpoint_trace w config) as [->|[args ->]];
      [done|eauto].
  - rewrite (bind_Raise _ _ _ Hres). cbn [trace].
    destruct (register_endpoint_trace w config) as [->|[args ->]];
      [done|eauto].
Qed.

End registration_order.

(** C1: when the existence check answers that the name is present (some
    entry of the registry has it as [name] or [id]), both
    [register_endpoint_by_name] and [register_custom_endpoint] return the
    "already registered" message with the listing as their only call into
    the backend; and whenever one of them calls the creation API, the
    existence check has answered false before, the calls being the listing
    and then the creation. *)
Theorem registered_name_is_not_created (w : World) :
  (∀ endpoint_name,
     res (check_endpoint_exists w endpoint_name) = Ok true →
     (∃ endpoints ep, api_get_all_endpoint w = Ok endpoints
        ∧ ep ∈ endpoints ∧ matches w endpoint_name ep)
     ∧ (∀ s, endpoint_name = VStr s →
          register_endpoint_by_name w s =
          MkEff (Ok ("Endpoint '" +:+ s +:+ "' already registered"))
                [GetAllEndpoints])
     ∧ (∀ config, py_get config "name" (VStr "unknown") = Ok endpoint_name →
          register_custom_endpoint w config =
          MkEff (Ok ("Endpoint '" +:+ py_str w endpoint_name
                     +:+ "' already registered"))
                [GetAllEndpoints]))
  ∧ (∀ s, calls_create (trace (register_endpoint_by_name w s)) = true →
       res (check_endpoint_exists w (VStr s)) = Ok false
       ∧ ∃ args, trace (register_endpoint_by_name w s)
                 = [GetAllEndpoints; CreateEndpoint args])
  ∧ (∀ config, calls_create (trace (register_custom_endpoint w config)) = true →
       ∃ endpoint_name,
         py_get config "name" (VStr "unknown") = Ok endpoint_name
         ∧ res (check_endpoint_exists w endpoint_name) = Ok false
         ∧ ∃ args, trace (register_custom_endpoint w config)
                   = [GetAllEndpoints; CreateEndpoint args]).
Proof.
  split_and!.
  - intros endpoint_name Htrue. split_and!.
    + by apply check_endpoint_exists_true.
    + intros s ->. unfold register_endpoint_by_name.
      rewrite (bind_Ok _ _ _ Htrue). cbn [res trace mret Eff_ret].
      by rewrite (check_endpoint_exists_trace _ _ _ Htrue).
    + intros config Hname. unfold register_custom_endpoint.
      rewrite Hname. unfold lift at 1.
      rewrite (bind_Ok _ _ endpoint_name) by done. cbn [res trace].
      rewrite (bind_Ok _ _ _ Htrue). cbn [res trace mret Eff_ret].
      by rewrite (check_endpoint_exists_trace _ _ _ Htrue).
  - intros s Hcreate. unfold register_endpoint_by_name in *.
    apply after_check in Hcreate as (b & Hres & -> & Hk).
    destruct b; [done|]. split; [done|].
    destruct (get_endpoint_config_from_file w s) as [config|e];
      unfold lift in *; [|done].
    rewrite (bind_Ok _ _ config) in * by done. cbn [res trace app] in *.
    destruct (negb (truthy config)); [done|].
    apply register_endpoint_then_message in Hk as [args ->]. eauto.
  - intros config Hcreate. unfold register_custom_endpoint in *.
    destruct (py_get config "name" (VStr "unknown")) as [endpoint_name|e];
      unfold lift in *; [|done].
    rewrite (bind_Ok _ _ endpoint_name) in * by done. cbn [res trace app] in *.
    exists endpoint_name. split; [done|].
    apply after_check in Hcreate as (b & Hres & -> & Hk).
    destruct b; [done|]. split; [done|].
    apply register_endpoint_then_message in Hk as [args ->]. eauto.
Qed.

Lemma registered_name_is_not_created_witness :
  register_endpoint_by_name sample_world "gpt4" =
    MkEff (Ok "Endpoint 'gpt4' already registered") [GetAllEndpoints]
  ∧ register_custom_endpoint sample_world registered_gpt4 =
    MkEff (Ok "Endpoint 'GPT 4' already registered") [GetAllEndpoints]
  ∧ res (check_endpoint_exists sample_world (VStr "llama")) = Ok false
  ∧ calls_create (trace (register_endpoint_by_name sample_world "llama")) = true.
Proof.
  destruct (registered_name_is_not_created sample_world)
    as (Hpresent & Hby_name & _).
  split_and!.
  - destruct (Hpresent (VStr "gpt4")) as (_ & Hreg & _);
      [vm_compute; reflexivity|].
    exact (Hreg "gpt4" eq_refl).
  - destruct (Hpresent (VStr "GPT 4")) as (_ & _ & Hreg);
      [vm_compute; reflexivity|].
    apply Hreg. vm_compute. reflexivity.
  - destruct (Hby_name "llama") as [Hfalse _]; [vm_compute; reflexivity|].
    exact Hfalse.
  - vm_compute. reflexivity.
Defined.

(** * Configuration loader *)




(** * Available configurations *)

Section ordering.

Lemma ascii_compare_cases a b :
  (Ascii.compare a b = Eq ∧ a = b)
  ∨ (Ascii.compare a b = Lt ∧ (N_of_ascii a < N_of_ascii b)%N)
  ∨ (Ascii.compare a b = Gt ∧ (N_of_ascii b < N_of_ascii a)%N).
Proof.
  unfold Ascii.compare.
  destruct (N.compare_spec (N_of_ascii a) (N_of_ascii b)) as [Heq|Hlt|Hgt].
  - left. split; [done|].
    by rewrite <- (ascii_N_embedding a), <- (ascii_N_embedding b), Heq.
  - right. left. done.
  - right. right. done.
Qed.

Lemma string_compare_trans s t u :
  String.compare s t ≠ Gt → String.compare t u ≠ Gt → String.compare s u ≠ Gt.
Proof.
  revert t u. induction s as [|a s IH]; intros [|b t] [|c u]; cbn; try done.
  destruct (ascii_compare_cases a b) as [[-> ->]|[[-> Hab]|[-> Hab]]];
    destruct (ascii_compare_cases b c) as [[Hbc ->]|[[Hbc Hbc']|[Hbc Hbc']]];
    rewrite ?Hbc; try done.
  - apply IH.
  - intros _ _.
    destruct (ascii_compare_cases a c) as [[-> ->]|[[-> ?]|[-> ?]]];
      try done; lia.
  - intros _ _.
    destruct (ascii_compare_cases a c) as [[-> ->]|[[-> ?]|[-> ?]]];
      try done; lia.
Qed.

#[global] Instance str_le_trans : Transitive str_le.
Proof.
  intros s t u. unfold str_le, String.leb. intros Hst Htu.
  pose proof (string_compare_trans s t u) as Htrans.
  destruct (String.compare s t), (String.compare t u),
    (String.compare s u); try done; exfalso; by apply Htrans.
Qed.

#[global] Instance str_le_total : Total str_le.
Proof. intros s t. apply String.leb_total. Qed.

End ordering.

Section stems.
Implicit Types (p name : string).

Lemma is_suffix_app suffix name :
  is_suffix suffix name = true → ∃ p, name = p +:+ suffix.
Proof.
  induction name as [|c name IH]; cbn [is_suffix].
  - rewrite orb_false_r. intros ->%String.eqb_eq. by exists "".
  - intros [->%String.eqb_eq|Hrest]%orb_true_iff; [by exists ""|].
    destruct (IH Hrest) as [p ->]. by exists (String c p).
Qed.

Lemma rfind_dot_json p : rfind_dot (p +:+ ".json") = Some (String.length p).
Proof.
  induction p as [|c p IH]; [done|].
  change (String c p +:+ ".json") with (String c (p +:+ ".json")).
  cbn [rfind_dot String.length]. by rewrite IH.
Qed.

Lemma substring_app p rest : String.substring 0 (String.length p) (p +:+ rest) = p.
Proof.
  induction p as [|c p IH]; [by destruct rest|].
  change (String c p +:+ rest) with (String c (p +:+ rest)).
  cbn [String.substring String.length]. by rewrite IH.
Qed.

Lemma string_length_app p rest :
  String.length (p +:+ rest) = (String.length p + String.length rest)%nat.
Proof.
  induction p as [|c p IH]; [done|].
  change (String c p +:+ rest) with (String c (p +:+ rest)).
  cbn [String.length]. by rewrite IH.
Qed.

(** The stem of [p.json] is [p], unless [p] is empty. *)
Lemma stem_json p : p ≠ "" → stem (p +:+ ".json") = p.
Proof.
  intros Hp. unfold stem. rewrite rfind_dot_json, string_length_app.
  replace (Nat.ltb 0 (String.length p)) with true
    by (symmetry; apply Nat.ltb_lt; destruct p; [done|cbn; lia]).
  replace (Nat.ltb _ _) with true
    by (symmetry; apply Nat.ltb_lt; cbn; lia).
  apply substring_app.
Qed.



End stems.




(** * Registrar *)

Section registrar.
Context (w : World).
Implicit Types (d : gmap string value).

Lemma is_prefix_app p rest : is_prefix p (p +:+ rest) = true.
Proof.
  induction p as [|c p IH]; [done|].
  change (String c p +:+ rest) with (String c (p +:+ rest)).
  cbn [is_prefix]. by rewrite Ascii.eqb_refl, IH.
Qed.

Lemma is_substring_app before p rest :
  is_substring p (before +:+ p +:+ rest) = true.
Proof.
  induction before as [|c before IH].
  - change ("" +:+ p +:+ rest) with (p +:+ rest).
    destruct (p +:+ rest) eqn:Heq; cbn [is_substring];
      rewrite <- Heq, is_prefix_app; done.
  - change (String c before +:+ p +:+ rest)
      with (String c (before +:+ p +:+ rest)).
    cbn [is_substring]. rewrite IH. apply orb_true_r.
Qed.

Lemma create_args_of_validated d :
  (∀ f, f ∈ required_fields → is_Some (d !! f)) →
  create_args_of (VDict (with_defaults d)) = Ok (args_of_dict d).
Proof.
  intros Hall.
  assert (Hsome : ∀ k : string,
             k ∈ (required_fields ++ optional_defaults.*1)%list →
             is_Some (with_defaults d !! k)).
  { intros k [Hk|Hk]%elem_of_app; rewrite lookup_with_defaults.
    - by destruct (Hall k Hk) as [v ->].
    - apply list_elem_of_fmap in Hk as ([k' v] & -> & Hkv).
      apply defaults_map_lookup in Hkv. cbn [fst].
      destruct (d !! k'); [done|]. by rewrite Hkv. }
  unfold create_args_of, args_of_dict, py_getitem.
  destruct (Hsome "name") as [? ->]; [by apply (bool_decide_unpack _)|].
  destruct (Hsome "connector_type") as [? ->];
    [by apply (bool_decide_unpack _)|].
  destruct (Hsome "uri") as [? ->]; [by apply (bool_decide_unpack _)|].
  destruct (Hsome "token") as [? ->]; [by apply (bool_decide_unpack _)|].
  destruct (Hsome "max_calls_per_second") as [? ->];
    [by apply (bool_decide_unpack _)|].
  destruct (Hsome "max_concurrency") as [? ->];
    [by apply (bool_decide_unpack _)|].
  destruct (Hsome "model") as [? ->]; [by apply (bool_decide_unpack _)|].
  destruct (Hsome "params") as [? ->]; [by apply (bool_decide_unpack _)|].
  done.
Qed.

Lemma validate_all_present d :
  (∀ f, f ∈ required_fields → is_Some (d !! f)) →
  validate_endpoint_config (VDict d) = Ok (VDict (with_defaults d)).
Proof.
  intros Hall. rewrite validate_dict.
  replace (filter _ required_fields) with (@nil string); [done|].
  symmetry. apply filter_nil_iff. intros f Hf Hno.
  destruct (Hall f Hf) as [v Hv]. congruence.
Qed.

Lemma reported_name_validated d :
  (∀ f, f ∈ required_fields → is_Some (d !! f)) →
  reported_name w (with_defaults d) = reported_name w d.
Proof.
  intros Hall. unfold reported_name. rewrite lookup_with_defaults.
  destruct (Hall "name") as [v ->]; [by apply (bool_decide_unpack _)|done].
Qed.

Lemma register_endpoint_handler_dict d e :
  register_endpoint_handler w (VDict d) e =
  MkEff (Raise (Exn RuntimeError
    (if is_ImportError e
     then "Failed to import Moonshot modules. Is Moonshot backend installed? Error: "
          +:+ exn_str e
     else "Failed to register endpoint '" +:+ reported_name w d +:+ "': "
          +:+ exn_str e))) [].
Proof.
  unfold register_endpoint_handler, reported_name.
  by destruct (is_ImportError e).
Qed.

(** The creation call raises on a mapping that passes validation. *)
Lemma register_endpoint_creation_raises_eq d e :
  import_from_api w "api_create_endpoint" = None →
  (∀ f, f ∈ required_fields → is_Some (d !! f)) →
  api_create_endpoint w (args_of_dict d) = Raise e →
  register_endpoint w (VDict d) =
  MkEff (Raise (Exn RuntimeError
    (if is_ImportError e
     then "Failed to import Moonshot modules. Is Moonshot backend installed? Error: "
          +:+ exn_str e
     else "Failed to register endpoint '" +:+ reported_name w d +:+ "': "
          +:+ exn_str e)))
    [CreateEndpoint (args_of_dict d)].
Proof.
  intros Himport Hall Hcreate. unfold register_endpoint.
  rewrite Himport, (validate_all_present _ Hall).
  unfold try_except, call_create_endpoint, emit, lift.
  rewrite (create_args_of_validated _ Hall). cbn. rewrite Hcreate. cbn.
  rewrite register_endpoint_handler_dict, (reported_name_validated _ Hall).
  done.
Qed.

End registrar.

(** An import failure is reported without the endpoint's name. *)
Lemma register_endpoint_import_error_unnamed :
  import_from_api offline_world "api_create_endpoint"
    = Some (Exn ImportError "No module named 'moonshot'")
  ∧ config_required_only !! "name" = Some (VStr "gpt4")
  ∧ res (register_endpoint offline_world (VDict config_required_only))
    = Raise (Exn RuntimeError
        "Failed to import Moonshot modules. Is Moonshot backend installed? Error: No module named 'moonshot'")
  ∧ ¬ (∃ msg, res (register_endpoint offline_world (VDict config_required_only))
              = Raise (Exn RuntimeError msg)
              ∧ is_substring "gpt4" msg = true).
Proof.
  split_and!; [vm_compute; reflexivity..|].
  intros (msg & Hres & Hnamed). vm_compute in Hres.
  injection Hres as <-. vm_compute in Hnamed. discriminate.
Qed.

(** C8, amended: on a configuration mapping, a failure of the backend import
    or of the creation call leaves the registrar with one [RuntimeError] in
    place of the backend's exception: [Failed to register endpoint '<name>':
    <error>], which names the endpoint, when the exception is not an
    [ImportError]; [Failed to import Moonshot modules. Is Moonshot backend
    installed? Error: <error>], which does not, when it is one. *)
Theorem register_endpoint_wraps_failures (w : World) (d : gmap string value) :
  let import_message e :=
    "Failed to import Moonshot modules. Is Moonshot backend installed? Error: "
    +:+ exn_str e in
  let register_message e :=
    "Failed to register endpoint '" +:+ reported_name w d +:+ "': "
    +:+ exn_str e in
  (∀ e, import_from_api w "api_create_endpoint" = Some e →
     register_endpoint w (VDict d) =
     MkEff (Raise (Exn RuntimeError
                     (if is_ImportError e then import_message e
                      else register_message e))) [])
  ∧ (∀ e, import_from_api w "api_create_endpoint" = None →
       (∀ f, f ∈ required_fields → is_Some (d !! f)) →
       api_create_endpoint w (args_of_dict d) = Raise e →
       register_endpoint w (VDict d) =
       MkEff (Raise (Exn RuntimeError
                       (if is_ImportError e then import_message e
                        else register_message e)))
             [CreateEndpoint (args_of_dict d)])
  ∧ (∀ e, is_substring (reported_name w d) (register_message e) = true).
Proof.
  intros import_message register_message. split_and!.
  - intros e Himport. unfold register_endpoint. rewrite Himport.
    apply register_endpoint_handler_dict.
  - intros e Himport Hall Hcreate.
    by apply register_endpoint_creation_raises_eq.
  - intros e. unfold register_message. apply is_substring_app.
Qed.

Lemma register_endpoint_wraps_failures_witness :
  register_endpoint refusing_world (VDict config_required_only) =
  MkEff (Raise (Exn RuntimeError
    "Failed to register endpoint 'gpt4': connector type not supported"))
    [CreateEndpoint (args_of_dict config_required_only)]
  ∧ register_endpoint offline_world (VDict config_required_only) =
    MkEff (Raise (Exn RuntimeError
      "Failed to import Moonshot modules. Is Moonshot backend installed? Error: No module named 'moonshot'"))
      [].
Proof.
  split.
  - destruct (register_endpoint_wraps_failures refusing_world
                config_required_only) as (_ & Hcreate & _).
    apply (Hcreate (Exn OtherException "connector type not supported")).
    + reflexivity.
    + intros f Hf.
      repeat (apply elem_of_cons in Hf as [->|Hf];
              [vm_compute; eexists; reflexivity|]).
      by apply not_elem_of_nil in Hf.
    + reflexivity.
  - destruct (register_endpoint_wraps_failures offline_world
                config_required_only) as (Himport & _ & _).
    apply (Himport (Exn ImportError "No module named 'moonshot'")).
    reflexivity.
Defined.

(** * Command line *)

Section command_line.
Context (w : World).

(** The registrar on the mapping that holds [name] only. *)
Lemma register_endpoint_name_x :
  register_endpoint w (VDict config_name_x) =
  MkEff (Raise (Exn RuntimeError
    match import_from_api w "api_create_endpoint" with
    | Some e =>
        if is_ImportError e
        then "Failed to import Moonshot modules. Is Moonshot backend installed? Error: "
             +:+ exn_str e
        else "Failed to register endpoint 'x': " +:+ exn_str e
    | None =>
        "Failed to register endpoint 'x': Missing required fields in endpoint config: ['connector_type', 'model']"
    end)) [].
Proof.
  unfold register_endpoint.
  destruct (import_from_api w "api_create_endpoint") as [e|].
  - rewrite register_endpoint_handler_dict. by destruct (is_ImportError e).
  - replace (validate_endpoint_config (VDict config_name_x))
      with (Raise (A:=value) (Exn ValueError
              "Missing required fields in endpoint config: ['connector_type', 'model']"))
      by (vm_compute; reflexivity).
    by rewrite register_endpoint_handler_dict.
Qed.

(** [register_custom_endpoint] on that mapping, by the answer of the
    existence check. *)
Lemma register_custom_endpoint_name_x :
  match res (check_endpoint_exists w (VStr "x")) with
  | Ok true => True
  | Ok false =>
      ∃ e, res (register_endpoint w (VDict config_name_x)) = Raise e
        ∧ register_custom_endpoint w (VDict config_name_x)
          = MkEff (Raise e) [GetAllEndpoints]
  | Raise e =>
      res (register_custom_endpoint w (VDict config_name_x)) = Raise e
      ∧ calls_create (trace (register_custom_endpoint w (VDict config_name_x)))
        = false
  end.
Proof.
  unfold register_custom_endpoint.
  replace (py_get (VDict config_name_x) "name" (VStr "unknown"))
    with (Ok (VStr "x")) by (vm_compute; reflexivity).
  unfold lift. rewrite !(bind_Ok _ _ (VStr "x")) by done.
  cbn [res trace app].
  destruct (res (check_endpoint_exists w (VStr "x"))) as [[]|e] eqn:Hcheck;
    [done| |].
  - rewrite (bind_Ok _ _ _ Hcheck), (check_endpoint_exists_trace _ _ _ Hcheck).
    cbn [res trace]. rewrite register_endpoint_name_x.
    eexists. split; reflexivity.
  - rewrite (bind_Raise _ _ _ Hcheck). cbn [res trace].
    by rewrite check_endpoint_exists_no_create.
Qed.

End command_line.

Section printing.
Context (w : World).

Lemma printed_app tr1 tr2 : printed (tr1 ++ tr2) = printed tr1 ++ printed tr2.
Proof. apply omap_app. Qed.

Lemma silent_bind {A B} (m : Eff A) (k : A → Eff B) :
  silent m → (∀ a, silent (k a)) → silent (m ≫= k).
Proof.
  unfold silent, mbind, Eff_bind. intros Hm Hk.
  destruct (res m) as [a|e]; cbn [trace]; [|done].
  by rewrite printed_app, Hm, Hk.
Qed.

Lemma silent_try_except {A} (body : Eff A) (handler : exn → Eff A) :
  silent body → (∀ e, silent (handler e)) → silent (try_except body handler).
Proof.
  unfold silent, try_except. intros Hbody Hhandler.
  destruct (res body) as [a|e]; cbn [trace]; [done|].
  by rewrite printed_app, Hbody, Hhandler.
Qed.

Lemma silent_lift {A} (r : result A) : silent (lift r).
Proof. done. Qed.

Lemma silent_check_endpoint_exists endpoint_name :
  silent (check_endpoint_exists w endpoint_name).
Proof.
  rewrite check_endpoint_exists_unfold.
  destruct (import_from_api w _); [done|].
  by destruct (_ ← api_get_all_endpoint w; _).
Qed.

Lemma silent_register_endpoint config : silent (register_endpoint w config).
Proof.
  unfold silent.
  by destruct (register_endpoint_trace w config) as [->|[args ->]].
Qed.

Lemma silent_register_endpoint_by_name endpoint_name :
  silent (register_endpoint_by_name w endpoint_name).
Proof.
  unfold register_endpoint_by_name.
  apply silent_bind; [apply silent_check_endpoint_exists|].
  intros []; [done|]. apply silent_bind; [apply silent_lift|].
  intros config. destruct (negb (truthy config)); [done|].
  apply silent_bind; [apply silent_register_endpoint|done].
Qed.

Lemma silent_register_custom_endpoint config :
  silent (register_custom_endpoint w config).
Proof.
  unfold register_custom_endpoint.
  apply silent_bind; [apply silent_lift|]. intros endpoint_name.
  apply silent_bind; [apply silent_check_endpoint_exists|].
  intros []; [done|].
  apply silent_bind; [apply silent_register_endpoint|done].
Qed.

Lemma silent_list_registered_endpoints :
  silent (list_registered_endpoints w).
Proof.
  unfold list_registered_endpoints.
  apply silent_try_except; [|done].
  apply silent_bind; [unfold import_api; by destruct (import_from_api w _)|].
  intros _. apply silent_bind; [|intros; apply silent_lift].
  unfold call_get_all_endpoint.
  apply silent_bind; [done|intros; apply silent_lift].
Qed.

(** A computation followed by steps that cannot raise, such as one
    [print]: when the whole raises, the computation did, and its trace is
    the whole trace. *)
Lemma then_Ok_Raise {A B} (m : Eff A) (k : A → Eff B) e :
  (∀ a, ∃ b, res (k a) = Ok b) →
  res (m ≫= k) = Raise e →
  res m = Raise e ∧ trace (m ≫= k) = trace m.
Proof.
  unfold mbind, Eff_bind. intros Hk.
  destruct (res m) as [a|e']; cbn [res trace].
  - destruct (Hk a) as [b ->]. done.
  - by intros [= ->].
Qed.

Lemma print_configs_Ok configs : res (print_configs configs) = Ok ().
Proof.
  induction configs as [|config rest IH]; [done|].
  cbn [print_configs]. unfold print, emit.
  rewrite (bind_Ok _ _ ()) by done. by cbn [res].
Qed.

End printing.

Section main_failures.
Context (w : World).

Lemma summaries_are_summaries endpoints l :
  summaries endpoints = Ok l → Forall is_summary l.
Proof.
  revert l. induction endpoints as [|ep rest IH]; intros l.
  { intros [= <-]. constructor. }
  cbn [summaries]. unfold summary_of.
  destruct ep as [| | | | | |d]; try done.
  cbn [py_get mbind result_bind].
  destruct (summaries rest) as [others|e]; [|done].
  intros [= <-]. constructor; [|by apply IH].
  unfold is_summary. eauto.
Qed.

Lemma list_registered_endpoints_summaries l :
  res (list_registered_endpoints w) = Ok l → Forall is_summary l.
Proof.
  unfold list_registered_endpoints, try_except, import_api,
    call_get_all_endpoint, emit, lift, raise.
  destruct (import_from_api w _); [done|]. cbn.
  destruct (api_get_all_endpoint w) as [endpoints|e]; cbn; [|done].
  destruct (summaries endpoints) as [l'|e] eqn:Hsum; cbn; [|done].
  intros [= <-]. by eapply summaries_are_summaries.
Qed.

Lemma print_endpoints_Ok l :
  Forall is_summary l → res (print_endpoints w l) = Ok ().
Proof.
  induction 1 as [|ep rest (name & model & connector_type & ->) _ IH];
    [done|].
  cbn [print_endpoints]. unfold py_getitem.
  rewrite !lookup_insert. repeat (case_decide; try done).
Qed.

Lemma bind_lift_Ok {A B} (a : A) (k : A → Eff B) :
  lift (Ok a) ≫= k = MkEff (res (k a)) (trace (k a)).
Proof. done. Qed.

(** When the [try] block raises, nothing has been printed. *)
Lemma main_try_Raise_silent command operands e :
  res (main_try w command operands) = Raise e →
  silent (main_try w command operands).
Proof.
  unfold main_try, add_moonshot_to_path.
  destruct (moonshot_dir_exists w); [|done].
  unfold silent. rewrite !bind_lift_Ok. cbn [res trace].
  destruct (String.eqb command "register").
  { destruct operands as [|endpoint_name [|]]; [done| |done].
    intros [_ ->]%then_Ok_Raise; [|by eexists].
    apply silent_register_endpoint_by_name. }
  destruct (String.eqb command "register-json").
  { destruct operands as [|json_config [|]]; [done| |done].
    destruct (json_loads w json_config) as [config|e']; [|done].
    rewrite !bind_lift_Ok. cbn [res trace].
    intros [_ ->]%then_Ok_Raise; [|by eexists].
    apply silent_register_custom_endpoint. }
  destruct (String.eqb command "list-available").
  { unfold print, emit. rewrite (bind_Ok _ _ ()) by done. cbn [res].
    by rewrite print_configs_Ok. }
  destruct (String.eqb command "list-registered").
  { destruct (res (list_registered_endpoints w)) as [l|e'] eqn:Hres.
    - rewrite (bind_Ok _ _ _ Hres). cbn [res].
      unfold print, emit. rewrite (bind_Ok _ _ ()) by done. cbn [res].
      rewrite print_endpoints_Ok; [done|].
      by apply list_registered_endpoints_summaries.
    - rewrite (bind_Raise _ _ _ Hres). cbn [res trace]. intros _.
      apply silent_list_registered_endpoints. }
  destruct (String.eqb command "check"); [|done].
  destruct operands as [|endpoint_name [|]]; [done| |done].
  intros [_ ->]%then_Ok_Raise; [|by eexists].
  apply silent_check_endpoint_exists.
Qed.

(** What [main] leaves, by the result of the [try] block. *)
Lemma main_outcome prog command operands :
  main w (prog :: command :: operands) =
  match res (main_try w command operands) with
  | Ok _ =>
      Outcome (printed (trace (main_try w command operands))) [] 0
              (backend_calls (trace (main_try w command operands)))
  | Raise e =>
      Outcome [] ["ERROR: " +:+ exn_str e] 1
              (backend_calls (trace (main_try w command operands)))
  end.
Proof.
  cbn [main].
  destruct (res (main_try w command operands)) as [u|e] eqn:Hres; [done|].
  by rewrite (main_try_Raise_silent _ _ _ Hres).
Qed.

End main_failures.

Lemma calls_create_backend_calls tr :
  calls_create (backend_calls tr) = calls_create tr.
Proof.
  induction tr as [|[| |] tr IH]; cbn; done.
Qed.

(** No endpoint [x] is registered, yet the run reports no missing field:
    the import of the creation function stands before the validation, and
    its [ImportError] is what the run reports. *)
Lemma register_json_name_only_import_error :
  json_loads no_creation_world json_name_x = Ok (VDict config_name_x)
  ∧ res (check_endpoint_exists no_creation_world (VStr "x")) = Ok false
  ∧ main no_creation_world
      ["endpoint-manager.py"; "register-json"; json_name_x] =
    Outcome []
      ["ERROR: Failed to import Moonshot modules. Is Moonshot backend installed? Error: cannot import name 'api_create_endpoint' from 'moonshot.src.api.api_connector_endpoint'"]
      1 [GetAllEndpoints]
  ∧ is_substring "connector_type"
      "ERROR: Failed to import Moonshot modules. Is Moonshot backend installed? Error: cannot import name 'api_create_endpoint' from 'moonshot.src.api.api_connector_endpoint'"
    = false
  ∧ is_substring "model"
      "ERROR: Failed to import Moonshot modules. Is Moonshot backend installed? Error: cannot import name 'api_create_endpoint' from 'moonshot.src.api.api_connector_endpoint'"
    = false.
Proof. split_and!; vm_compute; reflexivity. Qed.

(** C9, amended: [register-json] with the inline configuration that holds
    only [name = x] fails whenever the existence check does not report [x] as
    registered: exit code 1, one [ERROR:] line, nothing printed on standard
    output, nothing created.  When moreover the Moonshot directory is
    present, the existence check returns false and the creation function is
    importable, the line reports [connector_type] and [model] as missing. *)
Theorem register_json_name_only_fails (w : World) (prog : string) :
  json_loads w json_name_x = Ok (VDict config_name_x) →
  res (check_endpoint_exists w (VStr "x")) ≠ Ok true →
  let run := main w [prog; "register-json"; json_name_x] in
  exit_code run = 1%Z
  ∧ stdout run = []
  ∧ (∃ msg, stderr run = ["ERROR: " +:+ msg])
  ∧ calls_create (api_calls run) = false
  ∧ (moonshot_dir_exists w = true →
     res (check_endpoint_exists w (VStr "x")) = Ok false →
     import_from_api w "api_create_endpoint" = None →
     stderr run =
     ["ERROR: Failed to register endpoint 'x': Missing required fields in endpoint config: ['connector_type', 'model']"]).
Proof.
  intros Hjson Hnot run. subst run. rewrite main_outcome.
  assert (∃ e, res (main_try w "register-json" [json_name_x]) = Raise e
            ∧ calls_create (trace (main_try w "register-json" [json_name_x]))
              = false
            ∧ (moonshot_dir_exists w = true →
               res (check_endpoint_exists w (VStr "x")) = Ok false →
               import_from_api w "api_create_endpoint" = None →
               exn_str e = "Failed to register endpoint 'x': Missing required fields in endpoint config: ['connector_type', 'model']"))
    as (e & -> & Hnocreate & Hmsg).
  { unfold main_try, add_moonshot_to_path.
    destruct (moonshot_dir_exists w); [|by eexists].
    rewrite bind_lift_Ok. cbn [res trace].
    change (String.eqb "register-json" "register") with false.
    change (String.eqb "register-json" "register-json") with true.
    cbn match. rewrite Hjson, bind_lift_Ok. cbn [res trace].
    pose proof (register_custom_endpoint_name_x w) as Hcustom.
    destruct (res (check_endpoint_exists w (VStr "x"))) as [[]|e] eqn:Hcheck;
      [done| |].
    - destruct Hcustom as (e & Hreg & ->). exists e.
      split_and!; [done|done|].
      intros _ _ Himport. rewrite register_endpoint_name_x, Himport in Hreg.
      by injection Hreg as <-.
    - destruct Hcustom as [Hres Hnocreate]. exists e.
      rewrite (bind_Raise _ _ _ Hres). cbn [res trace]. done. }
  cbn [exit_code stdout stderr api_calls].
  rewrite calls_create_backend_calls.
  split_and!; eauto.
  intros Hdir Hcheck Himport. by rewrite Hmsg.
Qed.

Lemma register_json_name_only_fails_witness :
  main sample_world ["endpoint-manager.py"; "register-json"; json_name_x] =
  Outcome []
    ["ERROR: Failed to register endpoint 'x': Missing required fields in endpoint config: ['connector_type', 'model']"]
    1 [GetAllEndpoints].
Proof.
  destruct (register_json_name_only_fails sample_world "endpoint-manager.py")
    as (Hcode & Hout & _ & _ & Herr).
  - vm_compute. reflexivity.
  - vm_compute. discriminate.
  - specialize (Herr eq_refl).
    assert (Hfalse : res (check_endpoint_exists sample_world (VStr "x")) = Ok false)
      by (vm_compute; reflexivity).
    specialize (Herr Hfalse eq_refl).
    destruct (main sample_world
                ["endpoint-manager.py"; "register-json"; json_name_x])
      as [out err code calls] eqn:Hmain.
    cbn [exit_code stdout stderr] in *. subst out err code.
    f_equal.
    assert (Hcalls : api_calls (main sample_world
              ["endpoint-manager.py"; "register-json"; json_name_x])
              = [GetAllEndpoints]) by (vm_compute; reflexivity).
    rewrite Hmain in Hcalls. exact Hcalls.
Defined.

(** With the one argument [list-available], the script lists the
    configurations and exits with 0: no usage message, no exit code 1. *)
Lemma list_available_one_argument_exits_0 :
  main sample_world ["endpoint-manager.py"; "list-available"] =
    Outcome ["Available endpoint configurations:"; "  - broken"; "  - llama"]
            [] 0 []
  ∧ ¬ (stdout (main sample_world ["endpoint-manager.py"; "list-available"])
       = usage_lines
       ∧ exit_code (main sample_world ["endpoint-manager.py"; "list-available"])
         = 1%Z).
Proof.
  split; [vm_compute; reflexivity|].
  intros [_ Hcode]. vm_compute in Hcode. discriminate.
Qed.

(** C4, amended: invoked with no argument, the script prints the usage
    message on standard output and exits with code 1.  Invoked with one
    argument that is neither [list-available] nor [list-registered] (which
    take no operand and run), it exits with code 1 after one [ERROR:] line on
    standard error: the usage of the command for [register], [register-json]
    and [check], [Unknown command] for another word, or the missing Moonshot
    directory. *)
Theorem usage_on_missing_arguments (w : World) (argv : list string) :
  ((length argv ≤ 1)%nat → main w argv = Outcome usage_lines [] 1 [])
  ∧ (∀ prog command,
       argv = [prog; command] →
       command ≠ "list-available" → command ≠ "list-registered" →
       main w argv =
       Outcome [] ["ERROR: " +:+ one_argument_error w command] 1 []).
Proof.
  split.
  - destruct argv as [|prog [|command operands]]; cbn; [done|done|lia].
  - intros prog command -> Havailable Hregistered.
    rewrite main_outcome.
    unfold main_try, one_argument_error, add_moonshot_to_path.
    destruct (moonshot_dir_exists w); [|done].
    rewrite bind_lift_Ok. cbn [res trace].
    destruct (String.eqb command "register"); [done|].
    destruct (String.eqb command "register-json"); [done|].
    destruct (String.eqb command "list-available") eqn:Heq;
      [by apply String.eqb_eq in Heq|].
    destruct (String.eqb command "list-registered") eqn:Heq';
      [by apply String.eqb_eq in Heq'|].
    by destruct (String.eqb command "check").
Qed.

Lemma usage_on_missing_arguments_witness :
  main sample_world ["endpoint-manager.py"] = Outcome usage_lines [] 1 []
  ∧ main sample_world ["endpoint-manager.py"; "register"] =
    Outcome [] ["ERROR: Usage: register <endpoint_name>"] 1 [].
Proof.
  split.
  - apply (usage_on_missing_arguments sample_world ["endpoint-manager.py"]).
    cbn. lia.
  - destruct (usage_on_missing_arguments sample_world
                ["endpoint-manager.py"; "register"]) as [_ Hone].
    apply (Hone "endpoint-manager.py" "register");
      [reflexivity|discriminate|discriminate].
Defined.

(** * Error reporting *)

Section error_reporting.
Context (w : World).






End error_reporting.

Section failures_raise.
Context (w : World).




Lemma register_custom_endpoint_dict d :
  register_custom_endpoint w (VDict d) =
  MkEff
    (res (exists_ ← check_endpoint_exists w (name_or_unknown d);
          if (exists_ : bool) then
            mret ("Endpoint '" +:+ py_str w (name_or_unknown d)
                  +:+ "' already registered")
          else
            endpoint_id ← register_endpoint w (VDict d);
            mret ("Successfully registered custom endpoint '"
                  +:+ py_str w (name_or_unknown d)
                  +:+ "' with ID: " +:+ py_str w endpoint_id)))
    (trace (exists_ ← check_endpoint_exists w (name_or_unknown d);
          if (exists_ : bool) then
            mret ("Endpoint '" +:+ py_str w (name_or_unknown d)
                  +:+ "' already registered")
          else
            endpoint_id ← register_endpoint w (VDict d);
            mret ("Successfully registered custom endpoint '"
                  +:+ py_str w (name_or_unknown d)
                  +:+ "' with ID: " +:+ py_str w endpoint_id))).
Proof. done. Qed.


End failures_raise.




(** * Further properties of the validation *)

Section validation_more.
Implicit Types (d : gmap string value) (config : value).

Lemma with_defaults_idemp d : with_defaults (with_defaults d) = with_defaults d.
Proof.
  apply map_eq. intros k. rewrite !lookup_with_defaults.
  by destruct (d !! k), (defaults_map !! k).
Qed.

Lemma missing_in_str fields s : ∃ l, missing_in fields (VStr s) = Ok l.
Proof.
  induction fields as [|f fields [l IH]]; [by eexists|].
  cbn [missing_in py_contains mbind result_bind]. rewrite IH. by eexists.
Qed.

Lemma missing_in_list fields items : ∃ l, missing_in fields (VList items) = Ok l.
Proof.
  induction fields as [|f fields [l IH]]; [by eexists|].
  cbn [missing_in py_contains mbind result_bind]. rewrite IH. by eexists.
Qed.

(** On a value that is no mapping, validation raises, and never an
    [ImportError]. *)
Lemma validate_not_mapping config :
  ¬ is_mapping config →
  ∃ e, validate_endpoint_config config = Raise e
    ∧ exn_cls e ∈ [ValueError; AttributeError; TypeError].
Proof.
  intros Hnot. unfold validate_endpoint_config.
  destruct config as [| | | |s|items|d]; try (eexists; split; [done|]).
  1-4: cbn [exn_cls]; rewrite !elem_of_cons; auto.
  - destruct (missing_in_str required_fields s) as [l ->].
    cbn [mbind result_bind]. destruct l; eexists; (split; [done|]);
      cbn [exn_cls]; rewrite !elem_of_cons; auto.
  - destruct (missing_in_list required_fields items) as [l ->].
    cbn [mbind result_bind]. destruct l; eexists; (split; [done|]);
      cbn [exn_cls]; rewrite !elem_of_cons; auto.
  - destruct Hnot. by exists d.
Qed.

End validation_more.

(** X1: validation is idempotent: a mapping that has passed validation
    passes it again and is left as it is. *)
Theorem validate_idempotent (d : gmap string value) (config : value) :
  validate_endpoint_config (VDict d) = Ok config →
  validate_endpoint_config config = Ok config.
Proof.
  rewrite validate_dict.
  destruct (filter _ required_fields) as [|f missing] eqn:Hfilter; [|done].
  intros [= <-]. rewrite validate_dict.
  replace (filter _ required_fields) with (@nil string).
  - by rewrite with_defaults_idemp.
  - symmetry. apply filter_nil_iff. intros f Hf.
    eapply filter_nil_iff in Hfilter; [|done].
    rewrite lookup_with_defaults. by destruct (d !! f).
Qed.

Lemma validate_idempotent_witness :
  validate_endpoint_config (VDict (with_defaults config_with_falsy))
  = Ok (VDict (with_defaults config_with_falsy)).
Proof.
  apply (validate_idempotent config_with_falsy). vm_compute. reflexivity.
Defined.

(** X2: validation succeeds on mappings only: on any other value (a list, a
    string, a number, [None]) it raises a [ValueError], an [AttributeError]
    or a [TypeError]. *)
Theorem validate_rejects_non_mappings (config : value) :
  ¬ is_mapping config →
  ∃ e, validate_endpoint_config config = Raise e
    ∧ exn_cls e ∈ [ValueError; AttributeError; TypeError].
Proof. apply validate_not_mapping. Qed.

Lemma validate_rejects_non_mappings_witness :
  ∃ e, validate_endpoint_config
         (VList [VStr "name"; VStr "connector_type"; VStr "model"]) = Raise e
    ∧ exn_cls e ∈ [ValueError; AttributeError; TypeError].
Proof.
  apply (validate_rejects_non_mappings
           (VList [VStr "name"; VStr "connector_type"; VStr "model"])).
  intros [d Hd]. discriminate Hd.
Defined.

(** * Further properties of the existence check *)

Section existence_more.
Context (w : World).
Implicit Types (endpoint_name ep : value) (endpoints : list value).

Lemma matches_mapping endpoint_name ep :
  matches w endpoint_name ep →
  ∃ d, ep = VDict d
    ∧ (py_eq w (get_or_None d "name") endpoint_name = true
       ∨ py_eq w (get_or_None d "id") endpoint_name = true).
Proof.
  intros (name & id & Hname & Hid & Heq).
  destruct ep as [| | | | | |d]; try done.
  cbn [py_get] in Hname, Hid. injection Hname as <-. injection Hid as <-.
  by exists d.
Qed.

Lemma any_endpoint_match endpoint_name ep rest :
  matches w endpoint_name ep →
  any_endpoint w endpoint_name (ep :: rest) = Ok true.
Proof.
  intros (d & -> & Heq)%matches_mapping. unfold get_or_None in Heq.
  cbn [any_endpoint py_get mbind result_bind].
  destruct (py_eq w match d !! "name" with Some v => v | None => VNone end
              endpoint_name); [done|].
  by destruct Heq as [?| ->].
Qed.

Lemma any_endpoint_differs endpoint_name ep rest :
  differs w endpoint_name ep →
  any_endpoint w endpoint_name (ep :: rest) = any_endpoint w endpoint_name rest.
Proof.
  intros (d & -> & Hname & Hid). unfold get_or_None in Hname, Hid.
  cbn [any_endpoint py_get mbind result_bind]. by rewrite Hname, Hid.
Qed.

Lemma any_endpoint_not_mapping endpoint_name ep rest :
  ¬ is_mapping ep →
  any_endpoint w endpoint_name (ep :: rest) = Raise (no_attribute ep "get").
Proof.
  intros Hnot. destruct ep as [| | | | | |d]; try done.
  destruct Hnot. by exists d.
Qed.

Lemma any_endpoint_skip endpoint_name pre endpoints :
  Forall (differs w endpoint_name) pre →
  any_endpoint w endpoint_name (pre ++ endpoints)
  = any_endpoint w endpoint_name endpoints.
Proof.
  induction 1 as [|ep pre Hep _ IH]; [done|].
  cbn [app]. by rewrite any_endpoint_differs.
Qed.

Lemma mapping_matches_or_differs endpoint_name ep :
  is_mapping ep → matches w endpoint_name ep ∨ differs w endpoint_name ep.
Proof.
  intros [d ->]. unfold matches, differs, get_or_None. cbn [py_get].
  destruct (py_eq w match d !! "name" with Some v => v | None => VNone end
              endpoint_name) eqn:Hname; [left; eauto 6|].
  destruct (py_eq w match d !! "id" with Some v => v | None => VNone end
              endpoint_name) eqn:Hid; [left; eauto 6|].
  right. eauto.
Qed.

Lemma differs_not_matches endpoint_name ep :
  differs w endpoint_name ep → ¬ matches w endpoint_name ep.
Proof.
  intros (d & -> & Hname & Hid) (d' & [= <-] & Heq)%matches_mapping.
  destruct Heq; congruence.
Qed.

(** The scan of a registry of mappings. *)
Lemma any_endpoint_mappings endpoint_name endpoints :
  Forall is_mapping endpoints →
  ∃ b, any_endpoint w endpoint_name endpoints = Ok b
    ∧ (b = true ↔ ∃ ep, ep ∈ endpoints ∧ matches w endpoint_name ep).
Proof.
  induction 1 as [|ep rest Hep _ (b & IH & Hiff)].
  { exists false. split; [done|]. split; [done|].
    intros (ep & Hin & _). by apply not_elem_of_nil in Hin. }
  destruct (mapping_matches_or_differs endpoint_name ep Hep) as [Hm|Hd].
  - exists true. split; [by apply any_endpoint_match|].
    split; [|done]. intros _. exists ep. split; [apply list_elem_of_here|done].
  - exists b. rewrite any_endpoint_differs by done. split; [done|].
    rewrite Hiff. split.
    + intros (ep' & Hin & Hm). exists ep'.
      split; [by apply list_elem_of_further|done].
    + intros (ep' & [->|Hin]%elem_of_cons & Hm).
      * by apply differs_not_matches in Hd.
      * eauto.
Qed.

(** The check once the listing has answered. *)
Lemma check_endpoint_exists_listed endpoint_name endpoints :
  import_from_api w "api_get_all_endpoint" = None →
  api_get_all_endpoint w = Ok endpoints →
  check_endpoint_exists w endpoint_name =
  match any_endpoint w endpoint_name endpoints with
  | Ok b => MkEff (Ok b) [GetAllEndpoints]
  | Raise e =>
      MkEff (Raise (Exn RuntimeError
                      ((if is_ImportError e
                        then "Failed to import Moonshot modules: "
                        else "Failed to check existing endpoints: ")
                       +:+ exn_str e))) [GetAllEndpoints]
  end.
Proof.
  intros Himport Hlisting.
  by rewrite check_endpoint_exists_unfold, Himport, Hlisting.
Qed.

End existence_more.

(** X3: on a registry of mappings, the existence check answers, after one
    listing call, and its answer is true exactly when some entry has the
    requested name as its [name] or as its [id]. *)
Theorem check_endpoint_exists_iff
    (w : World) (endpoint_name : value) (endpoints : list value) :
  import_from_api w "api_get_all_endpoint" = None →
  api_get_all_endpoint w = Ok endpoints →
  Forall is_mapping endpoints →
  ∃ b, check_endpoint_exists w endpoint_name = MkEff (Ok b) [GetAllEndpoints]
    ∧ (b = true ↔ ∃ ep, ep ∈ endpoints ∧ matches w endpoint_name ep).
Proof.
  intros Himport Hlisting Hall.
  destruct (any_endpoint_mappings w endpoint_name endpoints Hall)
    as (b & Hany & Hiff).
  exists b. split; [|done].
  by rewrite (check_endpoint_exists_listed _ _ _ Himport Hlisting), Hany.
Qed.

Lemma check_endpoint_exists_iff_witness :
  check_endpoint_exists sample_world (VStr "gpt4")
    = MkEff (Ok true) [GetAllEndpoints]
  ∧ check_endpoint_exists sample_world (VStr "GPT 4")
    = MkEff (Ok true) [GetAllEndpoints]
  ∧ ¬ ∃ ep, ep ∈ [registered_gpt4] ∧ matches sample_world (VStr "gpt-4") ep.
Proof.
  assert (Hall : Forall is_mapping [registered_gpt4]).
  { constructor; [by eexists|constructor]. }
  split_and!; [vm_compute; reflexivity..|].
  destruct (check_endpoint_exists_iff sample_world (VStr "gpt-4")
              [registered_gpt4] eq_refl eq_refl Hall) as (b & Hcheck & Hiff).
  intros Hex. apply Hiff in Hex. subst b. vm_compute in Hcheck. discriminate.
Defined.

(** X4: the scan of the registry stops at the first match: when the entries
    before an entry are mappings that do not match, a matching entry makes
    the check answer true whatever follows it, and an entry that is no
    mapping makes the check raise [RuntimeError] with the message [Failed to
    check existing endpoints: '<type>' object has no attribute 'get']. *)
Theorem check_endpoint_exists_first_decides
    (w : World) (endpoint_name ep : value) (pre rest : list value) :
  import_from_api w "api_get_all_endpoint" = None →
  api_get_all_endpoint w = Ok (pre ++ ep :: rest) →
  Forall (differs w endpoint_name) pre →
  (matches w endpoint_name ep →
     check_endpoint_exists w endpoint_name = MkEff (Ok true) [GetAllEndpoints])
  ∧ (¬ is_mapping ep →
     check_endpoint_exists w endpoint_name =
     MkEff (Raise (Exn RuntimeError
                     ("Failed to check existing endpoints: '"
                      +:+ type_name ep +:+ "' object has no attribute 'get'")))
           [GetAllEndpoints]).
Proof.
  intros Himport Hlisting Hpre.
  rewrite (check_endpoint_exists_listed _ _ _ Himport Hlisting).
  rewrite any_endpoint_skip by done. split.
  - intros Hm. by rewrite any_endpoint_match.
  - intros Hnot. by rewrite any_endpoint_not_mapping.
Qed.

Lemma check_endpoint_exists_first_decides_witness :
  check_endpoint_exists odd_registry_world (VStr "gpt4")
    = MkEff (Ok true) [GetAllEndpoints]
  ∧ check_endpoint_exists odd_registry_world (VStr "llama")
    = MkEff (Raise (Exn RuntimeError
        "Failed to check existing endpoints: 'list' object has no attribute 'get'"))
        [GetAllEndpoints].
Proof.
  split.
  - destruct (check_endpoint_exists_first_decides odd_registry_world
                (VStr "gpt4") registered_gpt4 [] [VList []])
      as [Hmatch _]; [reflexivity|reflexivity|constructor|].
    apply Hmatch. exists (VStr "GPT 4"), (VStr "gpt4").
    split_and!; [reflexivity|reflexivity|by right].
  - destruct (check_endpoint_exists_first_decides odd_registry_world
                (VStr "llama") (VList []) [registered_gpt4] [])
      as [_ Hbad]; [reflexivity|reflexivity| |].
    + constructor; [|constructor]. eexists. split; [reflexivity|].
      split; reflexivity.
    + apply Hbad. intros [d Hd]. discriminate Hd.
Defined.

(** X5: the existence check raises nothing but [RuntimeError]: it answers
    after one listing call, or raises a [RuntimeError] whose message starts
    with [Failed to import Moonshot modules: ] for an [ImportError] and with
    [Failed to check existing endpoints: ] for any other exception, after at
    most one listing call. *)
Theorem check_endpoint_exists_raises_RuntimeError
    (w : World) (endpoint_name : value) :
  (∃ b, check_endpoint_exists w endpoint_name
        = MkEff (Ok b) [GetAllEndpoints])
  ∨ (∃ e tr,
       check_endpoint_exists w endpoint_name =
       MkEff (Raise (Exn RuntimeError
                       ((if is_ImportError e
                         then "Failed to import Moonshot modules: "
                         else "Failed to check existing endpoints: ")
                        +:+ exn_str e))) tr
       ∧ (tr = [] ∨ tr = [GetAllEndpoints])).
Proof.
  rewrite check_endpoint_exists_unfold.
  destruct (import_from_api w _) as [e|]; [right; eauto 6|].
  destruct (_ ← api_get_all_endpoint w; _) as [b|e]; [left|right]; eauto 6.
Qed.

(** * Further properties of the registrar *)

Section registrar_more.
Context (w : World).
Implicit Types (d : gmap string value) (config : value).

Lemma required_field_validated d k :
  (∀ f, f ∈ required_fields → is_Some (d !! f)) →
  k ∈ required_fields →
  Some (default VNone (with_defaults d !! k)) = d !! k.
Proof.
  intros Hall Hk. rewrite lookup_with_defaults.
  by destruct (Hall k Hk) as [v ->].
Qed.

Lemma optional_field_validated d k v0 :
  (k, v0) ∈ optional_defaults →
  default VNone (with_defaults d !! k) = default v0 (d !! k).
Proof.
  intros Hk%defaults_map_lookup. rewrite lookup_with_defaults.
  destruct (d !! k); [done|]. by rewrite Hk.
Qed.

Lemma register_endpoint_created d endpoint_id :
  import_from_api w "api_create_endpoint" = None →
  (∀ f, f ∈ required_fields → is_Some (d !! f)) →
  api_create_endpoint w (args_of_dict d) = Ok endpoint_id →
  register_endpoint w (VDict d) =
  MkEff (Ok endpoint_id) [CreateEndpoint (args_of_dict d)].
Proof.
  intros Himport Hall Hcreate. unfold register_endpoint.
  rewrite Himport, (validate_all_present _ Hall).
  unfold try_except, call_create_endpoint, emit, lift.
  rewrite (create_args_of_validated _ Hall). cbn. rewrite Hcreate. done.
Qed.

Lemma register_endpoint_handler_not_mapping config e :
  ¬ is_mapping config → is_ImportError e = false →
  register_endpoint_handler w config e
  = MkEff (Raise (no_attribute config "get")) [].
Proof.
  intros Hnot Hclass. unfold register_endpoint_handler. rewrite Hclass.
  destruct config as [| | | | | |d]; try done.
  destruct Hnot. by exists d.
Qed.

End registrar_more.

(** X6: on a mapping that holds the three required fields, with the
    creation function importable and answering, the registrar returns the new
    endpoint's id after one creation call; the call receives the caller's
    values of the required fields and, for each optional field, the caller's
    value when supplied and the default otherwise. *)
Theorem register_endpoint_passes_validated_fields
    (w : World) (d : gmap string value) (endpoint_id : value) :
  import_from_api w "api_create_endpoint" = None →
  (∀ f, f ∈ required_fields → is_Some (d !! f)) →
  api_create_endpoint w (args_of_dict d) = Ok endpoint_id →
  register_endpoint w (VDict d) =
    MkEff (Ok endpoint_id) [CreateEndpoint (args_of_dict d)]
  ∧ Some (arg_name (args_of_dict d)) = d !! "name"
  ∧ Some (arg_connector_type (args_of_dict d)) = d !! "connector_type"
  ∧ Some (arg_model (args_of_dict d)) = d !! "model"
  ∧ arg_uri (args_of_dict d) = default (VStr "") (d !! "uri")
  ∧ arg_token (args_of_dict d) = default (VStr "") (d !! "token")
  ∧ arg_max_calls_per_second (args_of_dict d)
    = default (VInt 2) (d !! "max_calls_per_second")
  ∧ arg_max_concurrency (args_of_dict d)
    = default (VInt 1) (d !! "max_concurrency")
  ∧ arg_params (args_of_dict d) = default (VDict ∅) (d !! "params").
Proof.
  intros Himport Hall Hcreate. split_and!.
  - by apply register_endpoint_created.
  - apply required_field_validated; [done|]. by apply (bool_decide_unpack _).
  - apply required_field_validated; [done|]. by apply (bool_decide_unpack _).
  - apply required_field_validated; [done|]. by apply (bool_decide_unpack _).
  - apply optional_field_validated. apply defaults_map_lookup. reflexivity.
  - apply optional_field_validated. apply defaults_map_lookup. reflexivity.
  - apply optional_field_validated. apply defaults_map_lookup. reflexivity.
  - apply optional_field_validated. apply defaults_map_lookup. reflexivity.
  - apply optional_field_validated. apply defaults_map_lookup. reflexivity.
Qed.

Lemma register_endpoint_passes_validated_fields_witness :
  register_endpoint sample_world (VDict config_with_falsy) =
    MkEff (Ok (VStr "gpt4")) [CreateEndpoint (args_of_dict config_with_falsy)]
  ∧ arg_max_concurrency (args_of_dict config_with_falsy) = VInt 0
  ∧ arg_max_calls_per_second (args_of_dict config_with_falsy) = VInt 2.
Proof.
  destruct (register_endpoint_passes_validated_fields sample_world
              config_with_falsy (VStr "gpt4"))
    as (Hrun & _ & _ & _ & _ & _ & Hcalls & Hconcurrency & _).
  - reflexivity.
  - intros f Hf.
    repeat (apply elem_of_cons in Hf as [->|Hf];
            [vm_compute; eexists; reflexivity|]).
    by apply not_elem_of_nil in Hf.
  - vm_compute. reflexivity.
  - split_and!; [exact Hrun| |].
    + rewrite Hconcurrency. vm_compute. reflexivity.
    + rewrite Hcalls. vm_compute. reflexivity.
Defined.

(** X7: on a mapping without one of the required fields, with the creation
    function importable, the registrar makes no call into the backend and
    raises a [RuntimeError], not the [ValueError] of the validation: its
    message is [Failed to register endpoint '<name>': ] followed by the
    validation message, [<name>] being [unknown] when [name] is the missing
    field. *)
Theorem register_endpoint_missing_field_no_call
    (w : World) (d : gmap string value) (field : string) :
  import_from_api w "api_create_endpoint" = None →
  field ∈ required_fields → d !! field = None →
  register_endpoint w (VDict d) =
  MkEff (Raise (Exn RuntimeError
    ("Failed to register endpoint '" +:+ reported_name w d +:+ "': "
     +:+ "Missing required fields in endpoint config: "
     +:+ py_repr_str_list (filter (λ f, d !! f = None) required_fields)))) []
  ∧ (d !! "name" = None → reported_name w d = "unknown").
Proof.
  intros Himport Hfield Hnone. split.
  - unfold register_endpoint. rewrite Himport, validate_dict.
    destruct (filter _ required_fields) as [|f missing] eqn:Hfilter.
    { eapply filter_nil_iff in Hfilter; [|done]. done. }
    by rewrite register_endpoint_handler_dict.
  - unfold reported_name. by intros ->.
Qed.

Lemma register_endpoint_missing_field_no_call_witness :
  register_endpoint sample_world (VDict config_missing_model) =
  MkEff (Raise (Exn RuntimeError
    "Failed to register endpoint 'gpt4': Missing required fields in endpoint config: ['model']"))
    [].
Proof.
  destruct (register_endpoint_missing_field_no_call sample_world
              config_missing_model "model") as [Hrun _].
  - reflexivity.
  - by apply (bool_decide_unpack _).
  - vm_compute. reflexivity.
  - rewrite Hrun. vm_compute. reflexivity.
Defined.

(** X8: on a configuration that is no mapping (a list, a string, a number),
    the registrar makes no call into the backend, and unless the import
    raises an [ImportError] the exception that leaves it is the
    [AttributeError] of [config.get] in its own handler, ['<type>' object has
    no attribute 'get'], not a [RuntimeError] naming the endpoint. *)
Theorem register_endpoint_non_mapping (w : World) (config : value) :
  ¬ is_mapping config →
  (∀ e, import_from_api w "api_create_endpoint" = Some e →
        is_ImportError e = false) →
  register_endpoint w config =
  MkEff (Raise (Exn AttributeError
                  ("'" +:+ type_name config
                   +:+ "' object has no attribute 'get'"))) [].
Proof.
  intros Hnot Himport. unfold register_endpoint.
  destruct (import_from_api w "api_create_endpoint") as [e|].
  { apply register_endpoint_handler_not_mapping; auto. }
  destruct (validate_not_mapping config Hnot) as (e & -> & Hclass).
  apply register_endpoint_handler_not_mapping; [done|].
  unfold is_ImportError.
  repeat (apply elem_of_cons in Hclass as [->|Hclass]; [done|]).
  by apply not_elem_of_nil in Hclass.
Qed.

Lemma register_endpoint_non_mapping_witness :
  register_endpoint sample_world (VList [VInt 1]) =
  MkEff (Raise (Exn AttributeError "'list' object has no attribute 'get'")) [].
Proof.
  apply (register_endpoint_non_mapping sample_world (VList [VInt 1])).
  - intros [d Hd]. discriminate Hd.
  - intros e He. discriminate He.
Defined.

(** * Further properties of the two registrations *)

Section registrations_more.
Context (w : World).
Implicit Types (d : gmap string value) (config : value).

Lemma truthy_with_name d :
  (∀ f, f ∈ required_fields → is_Some (d !! f)) → truthy (VDict d) = true.
Proof.
  intros Hall. cbn [truthy]. rewrite bool_decide_eq_false_2; [done|].
  intros ->. destruct (Hall "name") as [v Hv];
    [by apply (bool_decide_unpack _)|].
  by rewrite lookup_empty in Hv.
Qed.

(** A registration once the existence check has answered false. *)
Lemma after_check_false {B} endpoint_name (k : bool → Eff B) :
  res (check_endpoint_exists w endpoint_name) = Ok false →
  check_endpoint_exists w endpoint_name ≫= k =
  MkEff (res (k false)) (GetAllEndpoints :: trace (k false)).
Proof.
  intros Hcheck.
  by rewrite (bind_Ok _ _ _ Hcheck), (check_endpoint_exists_trace _ _ _ Hcheck).
Qed.

End registrations_more.

(** On stems of ASCII characters, the rendering of the list is the one
    written out in this file. *)
Lemma py_repr_list_ascii (w : World) (l : list string) :
  Forall (λ s, ascii_only s = true) l → py_repr_list w l = py_repr_str_list l.
Proof.
  intros Hascii. unfold py_repr_list, py_repr_str_list.
  replace (py_repr w <$> l) with (py_repr_str <$> l); [done|].
  induction Hascii as [|s l Hs _ IH]; [done|].
  cbn [fmap list_fmap]. unfold py_repr at 1. rewrite Hs. f_equal. exact IH.
Qed.

(** X9: when the name is not registered and the loader returns nothing, or
    a value that is falsy (the file holds [{}], [[]], [null], [0] or an empty
    string), [register_endpoint_by_name] raises [RuntimeError] with [No
    configuration found for endpoint '<name>'. Available endpoint configs: ]
    and [repr] of the list of the available configurations, after the
    listing call only; for stems of ASCII characters that [repr] is the list
    between brackets of the stems between quotes. *)
Theorem register_by_name_no_configuration
    (w : World) (endpoint_name : string) (config : value) :
  res (check_endpoint_exists w (VStr endpoint_name)) = Ok false →
  get_endpoint_config_from_file w endpoint_name = Ok config →
  truthy config = false →
  register_endpoint_by_name w endpoint_name =
    MkEff (Raise (Exn RuntimeError
      ("No configuration found for endpoint '" +:+ endpoint_name +:+ "'. "
       +:+ "Available endpoint configs: "
       +:+ py_repr_list w (list_available_endpoint_configs w))))
      [GetAllEndpoints]
  ∧ (Forall (λ s, ascii_only s = true) (list_available_endpoint_configs w) →
     py_repr_list w (list_available_endpoint_configs w)
     = py_repr_str_list (list_available_endpoint_configs w)).
Proof.
  intros Hcheck Hload Hfalsy. split; [|apply py_repr_list_ascii].
  unfold register_endpoint_by_name.
  rewrite (after_check_false _ _ _ Hcheck), Hload, bind_lift_Ok.
  cbn [res trace]. by rewrite Hfalsy.
Qed.

Lemma register_by_name_no_configuration_witness :
  register_endpoint_by_name odd_files_world "empty" =
    MkEff (Raise (Exn RuntimeError
      "No configuration found for endpoint 'empty'. Available endpoint configs: ['broken', 'llama']"))
      [GetAllEndpoints]
  ∧ register_endpoint_by_name sample_world "mistral" =
    MkEff (Raise (Exn RuntimeError
      "No configuration found for endpoint 'mistral'. Available endpoint configs: ['broken', 'llama']"))
      [GetAllEndpoints].
Proof.
  split.
  - destruct (register_by_name_no_configuration odd_files_world "empty"
                (VDict ∅)) as [-> _]; [vm_compute; reflexivity..|].
    vm_compute. reflexivity.
  - destruct (register_by_name_no_configuration sample_world "mistral" VNone)
      as [-> _]; [vm_compute; reflexivity..|].
    vm_compute. reflexivity.
Defined.

(** X10: when the name is not registered and its file holds a mapping with
    the three required fields, [register_endpoint_by_name] calls the listing,
    then the creation with the validated fields of the file, and returns
    [Successfully registered endpoint '<name>' with ID: <id>]; the endpoint
    is created under the [name] the file gives, the message shows the name
    that was requested. *)
Theorem register_by_name_success
    (w : World) (endpoint_name : string) (d : gmap string value)
    (endpoint_id : value) :
  res (check_endpoint_exists w (VStr endpoint_name)) = Ok false →
  get_endpoint_config_from_file w endpoint_name = Ok (VDict d) →
  import_from_api w "api_create_endpoint" = None →
  (∀ f, f ∈ required_fields → is_Some (d !! f)) →
  api_create_endpoint w (args_of_dict d) = Ok endpoint_id →
  register_endpoint_by_name w endpoint_name =
    MkEff (Ok ("Successfully registered endpoint '" +:+ endpoint_name
               +:+ "' with ID: " +:+ py_str w endpoint_id))
          [GetAllEndpoints; CreateEndpoint (args_of_dict d)]
  ∧ Some (arg_name (args_of_dict d)) = d !! "name".
Proof.
  intros Hcheck Hload Himport Hall Hcreate. split.
  - unfold register_endpoint_by_name.
    rewrite (after_check_false _ _ _ Hcheck), Hload, bind_lift_Ok.
    cbn [res trace]. rewrite (truthy_with_name _ Hall). cbn [negb].
    by rewrite (register_endpoint_created _ _ _ Himport Hall Hcreate).
  - apply required_field_validated; [done|]. by apply (bool_decide_unpack _).
Qed.

Lemma register_by_name_success_witness :
  register_endpoint_by_name sample_world "llama" =
  MkEff (Ok "Successfully registered endpoint 'llama' with ID: llama")
        [GetAllEndpoints; CreateEndpoint (args_of_dict config_llama)].
Proof.
  destruct (register_by_name_success sample_world "llama" config_llama
              (VStr "llama")) as [Hrun _].
  - vm_compute. reflexivity.
  - vm_compute. reflexivity.
  - reflexivity.
  - intros f Hf.
    repeat (apply elem_of_cons in Hf as [->|Hf];
            [vm_compute; eexists; reflexivity|]).
    by apply not_elem_of_nil in Hf.
  - vm_compute. reflexivity.
  - exact Hrun.
Defined.

(** X11: on a mapping with the three required fields whose [name] is not
    registered, [register_custom_endpoint] calls the listing, then the
    creation with the validated fields, and returns [Successfully registered
    custom endpoint '<name>' with ID: <id>]. *)
Theorem register_custom_success
    (w : World) (d : gmap string value) (endpoint_id : value) :
  res (check_endpoint_exists w (name_or_unknown d)) = Ok false →
  import_from_api w "api_create_endpoint" = None →
  (∀ f, f ∈ required_fields → is_Some (d !! f)) →
  api_create_endpoint w (args_of_dict d) = Ok endpoint_id →
  register_custom_endpoint w (VDict d) =
    MkEff (Ok ("Successfully registered custom endpoint '"
               +:+ py_str w (name_or_unknown d)
               +:+ "' with ID: " +:+ py_str w endpoint_id))
          [GetAllEndpoints; CreateEndpoint (args_of_dict d)]
  ∧ Some (name_or_unknown d) = d !! "name".
Proof.
  intros Hcheck Himport Hall Hcreate. split.
  - rewrite register_custom_endpoint_dict.
    rewrite (after_check_false _ _ _ Hcheck). cbn [res trace].
    by rewrite (register_endpoint_created _ _ _ Himport Hall Hcreate).
  - unfold name_or_unknown.
    destruct (Hall "name") as [v ->]; [by apply (bool_decide_unpack _)|done].
Qed.

Lemma register_custom_success_witness :
  register_custom_endpoint sample_world (VDict config_llama) =
  MkEff (Ok "Successfully registered custom endpoint 'llama' with ID: llama")
        [GetAllEndpoints; CreateEndpoint (args_of_dict config_llama)].
Proof.
  destruct (register_custom_success sample_world config_llama (VStr "llama"))
    as [Hrun _].
  - vm_compute. reflexivity.
  - reflexivity.
  - intros f Hf.
    repeat (apply elem_of_cons in Hf as [->|Hf];
            [vm_compute; eexists; reflexivity|]).
    by apply not_elem_of_nil in Hf.
  - vm_compute. reflexivity.
  - exact Hrun.
Defined.

(** * Further properties of the registry listing *)

Section listing_more.
Context (w : World).
Implicit Types (d : gmap string value) (ep : value) (endpoints : list value).

Lemma summaries_mappings endpoints :
  Forall is_mapping endpoints →
  summaries endpoints
  = Ok ((λ ep, VDict (summary_map (mapping_of ep))) <$> endpoints).
Proof.
  induction 1 as [|ep rest [d ->] _ IH]; [done|].
  cbn [summaries]. rewrite IH. done.
Qed.

Lemma summaries_not_mapping endpoints ep :
  ep ∈ endpoints → ¬ is_mapping ep →
  ∃ bad, bad ∈ endpoints ∧ ¬ is_mapping bad
    ∧ summaries endpoints = Raise (no_attribute bad "get").
Proof.
  induction endpoints as [|first rest IH]; intros Hin Hnot.
  { by apply not_elem_of_nil in Hin. }
  destruct first as [| | | | | |d];
    try (eexists; split; [apply list_elem_of_here|];
         split; [by intros [? ?]|done]).
  apply elem_of_cons in Hin as [->|Hin]; [destruct Hnot; by eexists|].
  destruct (IH Hin Hnot) as (bad & Hbad & Hnotbad & Hsum).
  exists bad. split; [by apply list_elem_of_further|]. split; [done|].
  cbn [summaries]. by rewrite Hsum.
Qed.

Lemma list_registered_endpoints_listed endpoints :
  import_from_api w "api_get_all_endpoint" = None →
  api_get_all_endpoint w = Ok endpoints →
  list_registered_endpoints w =
  match summaries endpoints with
  | Ok l => MkEff (Ok l) [GetAllEndpoints]
  | Raise e =>
      MkEff (Raise (Exn RuntimeError
                      ("Failed to list registered endpoints: " +:+ exn_str e)))
            [GetAllEndpoints]
  end.
Proof.
  intros Himport Hlisting.
  unfold list_registered_endpoints, try_except, import_api,
    call_get_all_endpoint, emit, lift, raise.
  rewrite Himport, Hlisting. cbn.
  by destruct (summaries endpoints).
Qed.

Lemma summary_map_lookup d k :
  k ∈ ["name"; "model"; "connector_type"] →
  summary_map d !! k = Some (get_or_None d k).
Proof.
  intros Hk. unfold summary_map.
  repeat (apply elem_of_cons in Hk as [->|Hk]; [by simplify_map_eq|]).
  by apply not_elem_of_nil in Hk.
Qed.

Lemma summary_map_dom d :
  dom (summary_map d) = list_to_set ["name"; "model"; "connector_type"].
Proof.
  unfold summary_map. rewrite !dom_insert_L, dom_empty_L. cbn.
  apply set_eq. intros k. rewrite !elem_of_union, !elem_of_singleton.
  rewrite elem_of_empty. tauto.
Qed.

End listing_more.

(** X12: on a registry of mappings, [list_registered_endpoints] returns,
    after one listing call, one summary per entry, in the order of the
    registry; a summary holds the keys [name], [model] and [connector_type]
    and no other ([id] is dropped), each with the entry's value, or [None]
    when the entry lacks the key. *)
Theorem list_registered_endpoints_summaries_of
    (w : World) (endpoints : list value) :
  import_from_api w "api_get_all_endpoint" = None →
  api_get_all_endpoint w = Ok endpoints →
  Forall is_mapping endpoints →
  ∃ l, list_registered_endpoints w = MkEff (Ok l) [GetAllEndpoints]
    ∧ length l = length endpoints
    ∧ ∀ i d, endpoints !! i = Some (VDict d) →
        ∃ s, l !! i = Some (VDict s)
          ∧ dom s = list_to_set ["name"; "model"; "connector_type"]
          ∧ ∀ k, k ∈ ["name"; "model"; "connector_type"] →
                 s !! k = Some (get_or_None d k).
Proof.
  intros Himport Hlisting Hall.
  exists ((λ ep, VDict (summary_map (mapping_of ep))) <$> endpoints).
  rewrite (list_registered_endpoints_listed _ _ Himport Hlisting).
  rewrite (summaries_mappings _ Hall). split_and!; [done|apply length_fmap|].
  intros i d Hi. exists (summary_map d).
  rewrite list_lookup_fmap, Hi. split_and!; [done|apply summary_map_dom|].
  apply summary_map_lookup.
Qed.

Lemma list_registered_endpoints_summaries_of_witness :
  list_registered_endpoints sample_world =
  MkEff (Ok [VDict (summary_map (mapping_of registered_gpt4))])
        [GetAllEndpoints]
  ∧ summary_map (mapping_of registered_gpt4) !! "id" = None
  ∧ summary_map (mapping_of registered_gpt4) !! "name" = Some (VStr "GPT 4").
Proof.
  destruct (list_registered_endpoints_summaries_of sample_world
              [registered_gpt4]) as (l & Hrun & _ & _).
  - reflexivity.
  - reflexivity.
  - constructor; [by eexists|constructor].
  - split_and!; [|vm_compute; reflexivity..].
    rewrite Hrun. f_equal.
    assert (Hres : res (list_registered_endpoints sample_world)
                   = Ok [VDict (summary_map (mapping_of registered_gpt4))])
      by (vm_compute; reflexivity).
    rewrite Hrun in Hres. exact Hres.
Defined.

(** X13: [list_registered_endpoints] raises nothing but [RuntimeError], with
    the message [Failed to list registered endpoints: <error>], an
    [ImportError] included; and one entry of the registry that is no mapping,
    wherever it stands, makes the whole listing fail so. *)
Theorem list_registered_endpoints_raises_RuntimeError (w : World) :
  ((∃ l, res (list_registered_endpoints w) = Ok l)
   ∨ (∃ e, res (list_registered_endpoints w) =
           Raise (Exn RuntimeError
                    ("Failed to list registered endpoints: " +:+ exn_str e))))
  ∧ (∀ endpoints ep,
       import_from_api w "api_get_all_endpoint" = None →
       api_get_all_endpoint w = Ok endpoints →
       ep ∈ endpoints → ¬ is_mapping ep →
       ∃ bad, bad ∈ endpoints ∧ ¬ is_mapping bad
         ∧ list_registered_endpoints w =
           MkEff (Raise (Exn RuntimeError
                    ("Failed to list registered endpoints: '"
                     +:+ type_name bad
                     +:+ "' object has no attribute 'get'")))
                 [GetAllEndpoints]).
Proof.
  split.
  - unfold list_registered_endpoints, try_except, import_api,
      call_get_all_endpoint, emit, lift, raise.
    destruct (import_from_api w _) as [e|]; cbn; [right; eauto|].
    destruct (api_get_all_endpoint w) as [endpoints|e]; cbn; [|right; eauto].
    destruct (summaries endpoints) as [l|e]; cbn; [left|right]; eauto.
  - intros endpoints ep Himport Hlisting Hin Hnot.
    destruct (summaries_not_mapping endpoints ep Hin Hnot)
      as (bad & Hbad & Hnotbad & Hsum).
    exists bad. split_and!; [done..|].
    by rewrite (list_registered_endpoints_listed _ _ Himport Hlisting), Hsum.
Qed.

Lemma list_registered_endpoints_raises_RuntimeError_witness :
  list_registered_endpoints odd_registry_world =
  MkEff (Raise (Exn RuntimeError
    "Failed to list registered endpoints: 'list' object has no attribute 'get'"))
    [GetAllEndpoints].
Proof.
  destruct (list_registered_endpoints_raises_RuntimeError odd_registry_world)
    as [_ Hbad].
  destruct (Hbad [registered_gpt4; VList []] (VList []))
    as (bad & Hin & Hnot & Hrun).
  - reflexivity.
  - reflexivity.
  - apply list_elem_of_further, list_elem_of_here.
  - intros [d Hd]. discriminate Hd.
  - rewrite Hrun. f_equal. f_equal. f_equal.
    apply elem_of_cons in Hin as [->|Hin].
    { destruct Hnot. by eexists. }
    apply elem_of_cons in Hin as [->|Hin]; [reflexivity|].
    by apply not_elem_of_nil in Hin.
Defined.

(** * Further properties of the command line *)

Section commands_more.
Context (w : World).
Implicit Types (d : gmap string value) (endpoints : list value).

Lemma print_configs_run configs :
  print_configs configs
  = MkEff (Ok ()) ((λ config, Print ("  - " +:+ config)) <$> configs).
Proof.
  induction configs as [|config rest IH]; [done|].
  cbn [print_configs]. rewrite IH. done.
Qed.


Lemma backend_calls_Print {A} (line : A → string) (l : list A) :
  backend_calls ((λ a, Print (line a)) <$> l) = [].
Proof. induction l as [|a l IH]; [done|]. cbn. exact IH. Qed.


End commands_more.

(** X14: when the Moonshot directory is missing, every invocation with at
    least one argument, whatever the command and its operands
    ([list-available] included, which reads no backend), ends with exit code
    1 and the line [ERROR: Moonshot directory not found at <directory>],
    without any call into the backend. *)
Theorem missing_directory_stops_every_command
    (w : World) (prog command : string) (operands : list string) :
  moonshot_dir_exists w = false →
  main w (prog :: command :: operands) =
  Outcome [] ["ERROR: Moonshot directory not found at " +:+ moonshot_dir w]
          1 [].
Proof.
  intros Hdir. cbn [main]. unfold main_try, add_moonshot_to_path.
  by rewrite Hdir.
Qed.

Lemma missing_directory_stops_every_command_witness :
  main nodir_world ["endpoint-manager.py"; "list-available"] =
  Outcome [] ["ERROR: Moonshot directory not found at /srv/revised-moonshot"]
          1 [].
Proof.
  apply (missing_directory_stops_every_command nodir_world
           "endpoint-manager.py" "list-available" []).
  reflexivity.
Defined.







(** X18: [register-json] with an argument that is not a JSON object makes
    no call into the backend (the Moonshot directory being present): a text
    that does not parse ends the run with the parser's message after
    [ERROR: ], a text that parses to a list, a string, a number or [null]
    with [ERROR: '<type>' object has no attribute 'get']; the exit code is 1
    in both cases. *)
Theorem register_json_not_an_object
    (w : World) (prog json_config : string) :
  moonshot_dir_exists w = true →
  (∀ e, json_loads w json_config = Raise e →
     main w [prog; "register-json"; json_config] =
     Outcome [] ["ERROR: " +:+ exn_str e] 1 [])
  ∧ (∀ config, json_loads w json_config = Ok config → ¬ is_mapping config →
       main w [prog; "register-json"; json_config] =
       Outcome [] ["ERROR: '" +:+ type_name config
                   +:+ "' object has no attribute 'get'"] 1 []).
Proof.
  intros Hdir. split.
  - intros e Hjson. cbn [main]. unfold main_try, add_moonshot_to_path.
    rewrite Hdir, !bind_lift_Ok. cbn [res trace]. eval_eqb.
    by rewrite Hjson.
  - intros config Hjson Hnot. cbn [main]. unfold main_try, add_moonshot_to_path.
    rewrite Hdir, !bind_lift_Ok. cbn [res trace]. eval_eqb.
    rewrite Hjson, !bind_lift_Ok. cbn [res trace].
    unfold register_custom_endpoint.
    destruct config as [| | | | | |d]; try done.
    destruct Hnot. by exists d.
Qed.

Lemma register_json_not_an_object_witness :
  main odd_files_world ["endpoint-manager.py"; "register-json"; "[1]"] =
    Outcome [] ["ERROR: 'list' object has no attribute 'get'"] 1 []
  ∧ main odd_files_world ["endpoint-manager.py"; "register-json"; "{"] =
    Outcome [] ["ERROR: Expecting value: line 1 column 1 (char 0)"] 1 [].
Proof.
  destruct (register_json_not_an_object odd_files_world "endpoint-manager.py"
              "[1]" eq_refl) as [_ Hlist].
  destruct (register_json_not_an_object odd_files_world "endpoint-manager.py"
              "{" eq_refl) as [Hraise _].
  split.
  - apply (Hlist (VList [VInt 1])); [reflexivity|].
    intros [d Hd]. discriminate Hd.
  - apply (Hraise (Exn JSONDecodeError
                     "Expecting value: line 1 column 1 (char 0)")).
    reflexivity.
Defined.

Section call_shapes.
Context (w : World).

Lemma backend_calls_app tr1 tr2 :
  backend_calls (tr1 ++ tr2) = backend_calls tr1 ++ backend_calls tr2.
Proof. apply List.filter_app. Qed.

Lemma call_shape_backend_calls tr : call_shape tr → backend_calls tr = tr.
Proof. by destruct 1. Qed.

Lemma call_shape_no_create tr :
  tr = [] ∨ tr = [GetAllEndpoints] → call_shape tr ∧ calls_create tr = false.
Proof. intros [-> | ->]; split; by constructor. Qed.

Lemma check_endpoint_exists_calls endpoint_name :
  trace (check_endpoint_exists w endpoint_name) = []
  ∨ trace (check_endpoint_exists w endpoint_name) = [GetAllEndpoints].
Proof.
  rewrite check_endpoint_exists_unfold.
  destruct (import_from_api w _); [by left|].
  destruct (_ ← api_get_all_endpoint w; _); by right.
Qed.

Lemma list_registered_endpoints_calls :
  trace (list_registered_endpoints w) = []
  ∨ trace (list_registered_endpoints w) = [GetAllEndpoints].
Proof.
  unfold list_registered_endpoints, try_except, import_api,
    call_get_all_endpoint, emit, lift, raise.
  destruct (import_from_api w _); cbn; [by left|].
  destruct (api_get_all_endpoint w) as [endpoints|e]; cbn; [|by right].
  destruct (summaries endpoints); cbn; by right.
Qed.

(** After the check: nothing, or what the registrar does. *)
Lemma call_shape_after_check {B} endpoint_name (k : bool → Eff B) :
  trace (k true) = [] →
  (trace (k false) = [] ∨ ∃ args, trace (k false) = [CreateEndpoint args]) →
  call_shape (trace (check_endpoint_exists w endpoint_name ≫= k)).
Proof.
  intros Htrue Hfalse.
  destruct (res (check_endpoint_exists w endpoint_name)) as [b|e] eqn:Hcheck.
  - rewrite (bind_Ok _ _ _ Hcheck), (check_endpoint_exists_trace _ _ _ Hcheck).
    cbn [trace app]. destruct b; [rewrite Htrue; constructor|].
    destruct Hfalse as [->|[args ->]]; constructor.
  - rewrite (bind_Raise _ _ _ Hcheck). cbn [trace].
    by destruct (check_endpoint_exists_calls endpoint_name) as [->| ->];
      constructor.
Qed.

Lemma register_endpoint_then_calls {B} config (k : value → B) :
  trace (endpoint_id ← register_endpoint w config; mret (k endpoint_id)) = []
  ∨ ∃ args,
      trace (endpoint_id ← register_endpoint w config; mret (k endpoint_id))
      = [CreateEndpoint args].
Proof.
  destruct (res (register_endpoint w config)) as [endpoint_id|e] eqn:Hres.
  - rewrite (bind_Ok _ _ _ Hres). cbn [trace mret Eff_ret].
    rewrite app_nil_r.
    destruct (register_endpoint_trace w config) as [->|[args ->]]; eauto.
  - rewrite (bind_Raise _ _ _ Hres). cbn [trace].
    destruct (register_endpoint_trace w config) as [->|[args ->]]; eauto.
Qed.

Lemma call_shape_register_endpoint_by_name endpoint_name :
  call_shape (trace (register_endpoint_by_name w endpoint_name)).
Proof.
  unfold register_endpoint_by_name. apply call_shape_after_check; [done|].
  destruct (get_endpoint_config_from_file w endpoint_name) as [config|e];
    [|by left].
  rewrite bind_lift_Ok. cbn [trace].
  destruct (negb (truthy config)); [by left|].
  apply register_endpoint_then_calls.
Qed.

Lemma call_shape_register_custom_endpoint config :
  call_shape (trace (register_custom_endpoint w config)).
Proof.
  unfold register_custom_endpoint.
  destruct (py_get config "name" (VStr "unknown")) as [endpoint_name|e];
    [|constructor].
  rewrite bind_lift_Ok. cbn [trace].
  apply call_shape_after_check; [done|]. apply register_endpoint_then_calls.
Qed.

Lemma backend_calls_then_print {A} (m : Eff A) (line : A → string) :
  backend_calls (trace (a ← m; print (line a))) = backend_calls (trace m).
Proof.
  unfold mbind, Eff_bind. destruct (res m); cbn [trace]; [|done].
  rewrite backend_calls_app. cbn. apply app_nil_r.
Qed.

Lemma backend_calls_print_endpoints endpoints :
  backend_calls (trace (print_endpoints w endpoints)) = [].
Proof.
  induction endpoints as [|ep rest IH]; [done|].
  cbn [print_endpoints].
  destruct (py_getitem ep "name") as [name|e]; [|done].
  rewrite bind_lift_Ok. cbn [trace].
  destruct (py_getitem ep "connector_type") as [connector_type|e]; [|done].
  rewrite bind_lift_Ok. cbn [trace].
  destruct (py_getitem ep "model") as [model|e]; [|done].
  rewrite bind_lift_Ok. cbn [trace].
  unfold print, emit. cbn [mbind Eff_bind res trace].
  rewrite backend_calls_app. cbn. exact IH.
Qed.

(** The calls of the [try] block, by command. *)
Lemma main_try_calls command operands :
  call_shape (backend_calls (trace (main_try w command operands)))
  ∧ (calls_create (trace (main_try w command operands)) = true →
     (command = "register" ∨ command = "register-json")
     ∧ ∃ operand, operands = [operand]).
Proof.
  unfold main_try, add_moonshot_to_path.
  destruct (moonshot_dir_exists w); [|split; [constructor|done]].
  rewrite bind_lift_Ok. cbn [res trace].
  destruct (String.eqb command "register") eqn:Hregister.
  { apply String.eqb_eq in Hregister as ->.
    destruct operands as [|endpoint_name [|]];
      [split; [constructor|done]| |split; [constructor|done]].
    rewrite <- calls_create_backend_calls.
    rewrite (backend_calls_then_print _ (λ result, result)).
    rewrite (call_shape_backend_calls _
               (call_shape_register_endpoint_by_name endpoint_name)).
    split; [apply call_shape_register_endpoint_by_name|eauto]. }
  destruct (String.eqb command "register-json") eqn:Hjson.
  { apply String.eqb_eq in Hjson as ->.
    destruct operands as [|json_config [|]];
      [split; [constructor|done]| |split; [constructor|done]].
    destruct (json_loads w json_config) as [config|e];
      [|split; [constructor|done]].
    rewrite bind_lift_Ok. cbn [res trace].
    rewrite <- calls_create_backend_calls.
    rewrite (backend_calls_then_print _ (λ result, result)).
    rewrite (call_shape_backend_calls _
               (call_shape_register_custom_endpoint config)).
    split; [apply call_shape_register_custom_endpoint|eauto]. }
  destruct (String.eqb command "list-available").
  { rewrite print_configs_run. unfold print, emit.
    cbn [mbind Eff_bind res trace app]. rewrite <- calls_create_backend_calls.
    cbn [backend_calls List.filter].
    change (List.filter _ ?tr) with (backend_calls tr).
    rewrite (backend_calls_Print (λ config, "  - " +:+ config)).
    split; [constructor|done]. }
  destruct (String.eqb command "list-registered").
  { rewrite <- calls_create_backend_calls.
    assert (Hcalls : backend_calls
              (trace (endpoints ← list_registered_endpoints w;
                      _ ← print "Registered endpoints:";
                      print_endpoints w endpoints))
            = trace (list_registered_endpoints w)).
    { unfold mbind at 1, Eff_bind at 1.
      destruct (res (list_registered_endpoints w)) as [l|e]; cbn [trace].
      - rewrite backend_calls_app. unfold print, emit.
        cbn [mbind Eff_bind res trace app backend_calls List.filter].
        change (List.filter _ ?tr) with (backend_calls tr).
        rewrite backend_calls_print_endpoints, app_nil_r.
        apply call_shape_backend_calls.
        by destruct list_registered_endpoints_calls as [->| ->]; constructor.
      - apply call_shape_backend_calls.
        by destruct list_registered_endpoints_calls as [->| ->]; constructor. }
    rewrite Hcalls.
    destruct (call_shape_no_create _ list_registered_endpoints_calls)
      as [Hshape Hnone].
    split; [done|]. by rewrite Hnone. }
  destruct (String.eqb command "check"); [|split; [constructor|done]].
  destruct operands as [|endpoint_name [|]];
    [split; [constructor|done]| |split; [constructor|done]].
  rewrite <- calls_create_backend_calls.
  rewrite (backend_calls_then_print _
             (λ exists_ : bool,
                "Endpoint '" +:+ endpoint_name +:+ "' "
                +:+ (if exists_ then "exists" else "does not exist")
                +:+ " in registry")).
  destruct (call_shape_no_create _
              (check_endpoint_exists_calls (VStr endpoint_name)))
    as [Hshape Hnone].
  rewrite (call_shape_backend_calls _ Hshape).
  split; [done|]. by rewrite Hnone.
Qed.

End call_shapes.

(** X19: whatever the environment and the arguments, a run calls the
    backend in one of three ways: not at all, the listing once, or the
    listing once followed by one creation; and a creation is only called by
    [register <name>] and [register-json <json>]. *)
Theorem run_calls_backend_in_order (w : World) (argv : list string) :
  call_shape (api_calls (main w argv))
  ∧ (calls_create (api_calls (main w argv)) = true →
     ∃ prog command operand,
       argv = [prog; command; operand]
       ∧ (command = "register" ∨ command = "register-json")).
Proof.
  destruct argv as [|prog [|command operands]];
    [split; [constructor|done]..|].
  destruct (main_try_calls w command operands) as [Hshape Hcreate].
  cbn [main].
  destruct (res (main_try w command operands)); cbn [api_calls];
    (split; [done|]); rewrite calls_create_backend_calls;
    intros [Hcommand [operand ->]]%Hcreate; eauto 6.
Qed.

(** X20: every name [list-available] shows can be given to [register]: when
    the entries of the data directory that match [*.json] exist as paths and
    none is the dot-file [.json], the loader finds the file [<stem>.json] of
    each listed stem, and its answer is what that file holds. *)
Theorem listed_name_is_loadable
    (w : World) (names : list string) (listed : string) :
  data_dir_listing w = Some names →
  (∀ name, name ∈ names → is_suffix ".json" name = true →
           is_Some (file_at w name)) →
  ".json" ∉ names →
  listed ∈ list_available_endpoint_configs w →
  ∃ node, file_at w (listed +:+ ".json") = Some node
    ∧ get_endpoint_config_from_file w listed
      = load_result w (listed +:+ ".json") node.
Proof.
  intros Hlisting Hfiles Hdot. unfold list_available_endpoint_configs.
  rewrite Hlisting. unfold sorted, glob_json.
  rewrite merge_sort_Permutation.
  intros (name & -> & [Hsuffix Hname]%list_elem_of_filter)%list_elem_of_fmap.
  apply Is_true_eq_true in Hsuffix.
  destruct (Hfiles name Hname Hsuffix) as [node Hnode].
  destruct (is_suffix_app _ _ Hsuffix) as [p ->].
  assert (Hp : p ≠ "") by (intros ->; by apply Hdot).
  rewrite (stem_json _ Hp). exists node. split; [done|].
  unfold get_endpoint_config_from_file, possible_files, load_result.
  cbn [load_first]. by rewrite Hnode.
Qed.

Lemma listed_name_is_loadable_witness :
  ∃ node, file_at sample_world "llama.json" = Some node
    ∧ get_endpoint_config_from_file sample_world "llama"
      = load_result sample_world "llama.json" node.
Proof.
  apply (listed_name_is_loadable sample_world
           ["llama.json"; "broken.json"; "README.md"] "llama").
  - reflexivity.
  - intros name Hname Hsuffix.
    repeat (apply elem_of_cons in Hname as [->|Hname];
            [first [discriminate Hsuffix|eexists; reflexivity]|]).
    by apply not_elem_of_nil in Hname.
  - intros Hin.
    repeat (apply elem_of_cons in Hin as [Hin|Hin]; [discriminate Hin|]).
    by apply not_elem_of_nil in Hin.
  - replace (list_available_endpoint_configs sample_world)
      with ["broken"; "llama"] by (vm_compute; reflexivity).
    apply list_elem_of_further, list_elem_of_here.
Defined.


